(** * ETLProcess: a shallow embedding of [ETLProcess/ETLProcess.py]

    The pipeline discovers the files of [./unzipped_folder], extracts each
    of them into a pandas [DataFrame] in a task of its own, concatenates
    the frames, converts [height] and [weight] to metric units and writes
    one CSV file.

    Layout of the development:
    - Python exceptions and the [io] monad (log sink, object store, output
      files, raised exceptions);
    - the part of pandas the program calls: [DataFrame], [pd.DataFrame] on
      a list of dicts, [pd.concat], [pd.to_numeric], column selection and
      assignment, [to_csv];
    - the program: [Logger], [log_function], the extractors,
      [DataExtractorFactory.get_extractor], [ETLProcess];
    - the properties. *)

From Stdlib Require Import Ascii Floats.
From stdpp Require Import base option list strings gmap.

Set Warnings "-inexact-float".

(** ** Python exceptions *)

(** The classes the [except] clauses of the program tell apart. An [exn]
    stands for an instance of a subclass of Python's [Exception]: every
    error raised by [open], pandas' readers and ElementTree is one.  A
    subclass of [ValueError] (pandas' [ParserError] and [EmptyDataError],
    [UnicodeDecodeError], ...) is recorded as [ValueError], since
    [except ValueError] matches it. *)
Inductive exc_class : Type :=
  | ValueError
  | FileNotFoundError
  | KeyError
  | AttributeError
  | OSError
  | OtherException (name : string).

Record exn : Type := Exn { exc_type : exc_class; exc_msg : string }.

Inductive result (A : Type) : Type :=
  | Ok (a : A)
  | Raise (e : exn).
Arguments Ok {A} a.
Arguments Raise {A} e.

Definition is_ok {A} (r : result A) : bool :=
  match r with Ok _ => true | Raise _ => false end.

(** ** Python dicts with string keys

    A dict is an association list in insertion order; assigning to a key
    that is present keeps its position and replaces its value. *)
Fixpoint dict_set {V} (k : string) (v : V) (d : list (string * V))
  : list (string * V) :=
  match d with
  | [] => [(k, v)]
  | (k', v') :: d' =>
      if decide (k' = k) then (k', v) :: d' else (k', v') :: dict_set k v d'
  end.

Fixpoint dict_get {V} (k : string) (d : list (string * V)) : option V :=
  match d with
  | [] => None
  | (k', v) :: d' => if decide (k' = k) then Some v else dict_get k d'
  end.

(** ** pandas: cells and frames *)

(** A cell of a frame: Python's [None], a string, or a float64 (pandas'
    missing value [NaN] is the float [nan]). *)
Inductive cell : Type :=
  | CNone
  | CStr (s : string)
  | CNum (x : float).

Definition NaN : cell := CNum nan.

(** [pd.isna] on one cell. *)
Definition isna (c : cell) : bool :=
  match c with
  | CNone => true
  | CStr _ => false
  | CNum x => PrimFloat.is_nan x
  end.

(** A frame is columnar: a row count (the index) and the labelled columns
    in their order. [pd.DataFrame([{}])] has one row and no column, so the
    row count is a field of its own. *)
Record DataFrame : Type := mkDataFrame {
  nrows : nat;
  data : list (string * list cell)
}.

(** [df.columns] *)
Definition columns (df : DataFrame) : list string := (data df).*1.

(** [pd.DataFrame()] *)
Definition DataFrame_empty : DataFrame := mkDataFrame 0 [].

(** The column of a label. *)
Definition get_col (label : string) (df : DataFrame) : option (list cell) :=
  dict_get label (data df).

(** The cell of row [i] in column [label]. *)
Definition cell_at (df : DataFrame) (label : string) (i : nat) : option cell :=
  v ← get_col label df; v !! i.

(** The invariant of every frame pandas builds: labels are unique and each
    column has one cell per row. *)
Definition df_wf (df : DataFrame) : Prop :=
  NoDup (columns df) ∧ Forall (λ c, length c.2 = nrows df) (data df).

(** *** Labels in order of first appearance *)

Definition add_label (acc : list string) (l : string) : list string :=
  if decide (l ∈ acc) then acc else acc ++ [l].

Definition unique_labels (ls : list string) : list string :=
  foldl add_label [] ls.

(** *** [pd.DataFrame(rows)] for a list of dicts *)

Definition is_str (c : cell) : bool :=
  match c with CStr _ => true | _ => false end.

Definition is_num (c : cell) : bool :=
  match c with CNum _ => true | _ => false end.

(** pandas infers a type for each column it builds from Python objects. A
    column that holds a string stays a column of objects, and so does a
    column of [None] only. A column with no string that holds a number,
    [NaN] among them (which is what a missing key gives), becomes float64:
    its [None] cells become [NaN]. *)
Definition infer_column (col : list cell) : list cell :=
  if existsb is_str col then col
  else if existsb is_num col
       then (λ c, match c with CNone => NaN | _ => c end) <$> col
       else col.

Definition DataFrame_of_dicts (rows : list (list (string * cell))) : DataFrame :=
  let labels := unique_labels (concat ((λ r, r.*1) <$> rows)) in
  mkDataFrame (length rows)
    ((λ l, (l, infer_column ((λ r, default NaN (dict_get l r)) <$> rows)))
       <$> labels).

(** *** [pd.concat(objs, ignore_index=True)] *)

(** A frame reindexed on [label]: its column, or [NaN] in every row. *)
Definition column_or_nan (label : string) (df : DataFrame) : list cell :=
  default (replicate (nrows df) NaN) (get_col label df).

Definition pd_concat (objs : list DataFrame) : result DataFrame :=
  match objs with
  | [] => Raise (Exn ValueError "No objects to concatenate")
  | _ :: _ =>
      Ok (mkDataFrame
            (sum_list (nrows <$> objs))
            ((λ l, (l, concat (column_or_nan l <$> objs)))
               <$> unique_labels (concat (columns <$> objs))))
  end.

(** *** Column selection [df[labels]] *)

Definition select (df : DataFrame) (labels : list string)
  : option (list (string * list cell)) :=
  mapM (λ l, v ← get_col l df; Some (l, v)) labels.

(** Python's [repr] of a list of strings that hold no quote. *)
Definition repr_list (ls : list string) : string :=
  "[" +:+ String.concat ", " ((λ l, "'" +:+ l +:+ "'") <$> ls) +:+ "]".

Definition key_error (df : DataFrame) (labels : list string) : exn :=
  let missing := filter (λ l, l ∉ columns df) labels in
  Exn KeyError
    (if decide (length missing = length labels)
     then "None of [Index(" +:+ repr_list labels
            +:+ ", dtype='object')] are in the [columns]"
     else repr_list missing +:+ " not in index").

Definition getitem (df : DataFrame) (labels : list string) : result DataFrame :=
  match select df labels with
  | Some cols => Ok (mkDataFrame (nrows df) cols)
  | None => Raise (key_error df labels)
  end.

(** *** [pd.to_numeric(errors='coerce')] and [multiply] *)

(** A selection whose columns are float64. *)
Definition float_columns : Type := list (string * list float).

Section Numeric.
(** pandas' parser of a number written in a string: [None] when the
    string is not a number. *)
Variable str_to_float : string → option float.

Definition to_numeric (c : cell) : float :=
  match c with
  | CNone => nan
  | CStr s => default nan (str_to_float s)
  | CNum x => x
  end.

(** [df.apply(pd.to_numeric, errors='coerce')]: column by column. *)
Definition apply_to_numeric (df : DataFrame) : float_columns :=
  (λ c : string * list cell, (c.1, to_numeric <$> c.2)) <$> data df.
End Numeric.

(** [cols.multiply(other)] for a list [other]: one factor per column. *)
Definition multiply (cols : float_columns) (other : list float)
  : result float_columns :=
  if decide (length cols = length other)
  then Ok (zip_with (λ (c : string * list float) k, (c.1, (λ x, (x * k)%float) <$> c.2))
             cols other)
  else Raise (Exn ValueError "Unable to coerce to Series, length mismatch").

(** [df[labels] = value] on the columns of [df]: the i-th label receives
    the i-th column of [value]; a label that is present keeps its place. *)
Definition setitem_cols (cols : list (string * list cell)) (labels : list string)
  (value : float_columns) : list (string * list cell) :=
  foldl (λ acc (lv : string * (string * list float)),
           dict_set lv.1 (CNum <$> lv.2.2) acc)
    cols (zip labels value).

Definition setitem (df : DataFrame) (labels : list string) (value : float_columns)
  : result DataFrame :=
  if decide (length labels = length value)
  then Ok (mkDataFrame (nrows df) (setitem_cols (data df) labels value))
  else Raise (Exn ValueError "Columns must be same length as key").

(** *** [df.to_csv(path, index=False)] *)

(** The records written: the header, then one record per row. Joining the
    fields with commas and quoting them is the csv writer's. *)
Definition csv_records : Type := list (list string).

Section ToCsv.
(** How pandas prints a float that is not [NaN]. *)
Variable float_repr : float → string.

Definition render_cell (c : cell) : string :=
  match c with
  | CNone => ""
  | CStr s => s
  | CNum x => if PrimFloat.is_nan x then "" else float_repr x
  end.

Definition row_records (df : DataFrame) (i : nat) : list string :=
  (λ c : string * list cell, render_cell (default NaN (c.2 !! i))) <$> data df.

Definition to_csv (df : DataFrame) : csv_records :=
  columns df :: (row_records df <$> seq 0 (nrows df)).
End ToCsv.

(** ** The [io] monad *)

(** What the program reads and writes besides its arguments: the lines of
    the log file (without their timestamps), the frames that are assigned
    in place, by reference, and the files written. *)
Record world : Type := mkWorld {
  log_file : list string;
  frames : list DataFrame;
  fs : gmap string csv_records
}.

Definition io (A : Type) : Type := world → result A * world.

Definition io_ret {A} (a : A) : io A := λ w, (Ok a, w).

Definition io_bind {A B} (f : A → io B) (m : io A) : io B :=
  λ w, match m w with
       | (Ok a, w') => f a w'
       | (Raise e, w') => (Raise e, w')
       end.

#[export] Instance io_mret : MRet io := @io_ret.
#[export] Instance io_mbind : MBind io := @io_bind.

Definition raise {A} (e : exn) : io A := λ w, (Raise e, w).

Definition lift {A} (r : result A) : io A := λ w, (r, w).

(** [try: body except Exception as e: handler(e)] *)
Definition try_except {A} (body : io A) (handler : exn → io A) : io A :=
  λ w, match body w with
       | (Ok a, w') => (Ok a, w')
       | (Raise e, w') => handler e w'
       end.

(** A reference to a frame of the store. *)
Definition ref : Type := nat.

Definition new_frame (df : DataFrame) : io ref :=
  λ w, (Ok (length (frames w)),
        mkWorld (log_file w) (frames w ++ [df]) (fs w)).

(** Reading through a reference. [new_frame] is the only source of
    references, so the second case is never met by the program. *)
Definition get_frame (r : ref) : io DataFrame :=
  λ w, match frames w !! r with
       | Some df => (Ok df, w)
       | None => (Raise (Exn (OtherException "ReferenceError") "no such frame"), w)
       end.

Definition put_frame (r : ref) (df : DataFrame) : io unit :=
  λ w, (Ok (), mkWorld (log_file w) (<[r := df]> (frames w)) (fs w)).

(** The file at [path] is replaced as a whole. *)
Definition put_file (path : string) (content : csv_records) : io unit :=
  λ w, (Ok (), mkWorld (log_file w) (frames w) (<[path := content]> (fs w))).

(** ** [asyncio.gather] *)

(** The awaitables run as tasks that finish in an order the event loop
    decides; [order] stands for its decisions: with [n] tasks pending, the
    next to finish is the pending task number [hd 0 order mod n]. Whatever
    the order, the result of the task dispatched i-th goes to slot i. The
    first exception raised by a task is raised by [gather]. *)
Fixpoint gather_loop {A} (n : nat) (pending : list (nat * io A))
  (order : list nat) (slots : list (option A)) : io (list (option A)) :=
  match n, pending with
  | S n', p :: _ =>
      let k := hd 0 order `mod` length pending in
      let task := default p (pending !! k) in
      r ← task.2;
      gather_loop n' (delete k pending) (tail order) (<[task.1 := Some r]> slots)
  | _, _ => mret slots
  end.

Definition gather {A} (order : list nat) (aws : list (io A)) : io (list A) :=
  slots ← gather_loop (length aws) (imap pair aws) order
            (replicate (length aws) None);
  mret (omap id slots).

(** ** The program *)

(** *** [Logger] and [log_function] *)

(** [Logger().log(msg)]: one more line in the log file. The timestamp the
    line starts with is left out. Here the log file accepts the line;
    [log_to], further down, is the same call on a sink that can refuse. *)
Definition log (msg : string) : io unit :=
  λ w, (Ok (), mkWorld (log_file w ++ [msg]) (frames w) (fs w)).

(** [f"Context: {context}" if context else "No context provided"]: an
    empty string is false as [None] is. *)
Definition context_info (context : option string) : string :=
  match context with
  | Some (String _ _ as c) => "Context: " +:+ c
  | _ => "No context provided"
  end.

(** [@log_function(context)] around the coroutine [func] named [name]. The
    line that reports completion is written only when [func] returns. *)
Definition log_function {A} (context : option string) (name : string)
  (func : io A) : io A :=
  log (name +:+ " started. " +:+ context_info context);;
  result ← func;
  log (name +:+ " completed. " +:+ context_info context);;
  mret result.

(** *** [file.split('.')[-1]] *)

(** [s.split(sep)] for a separator of one character: never empty. *)
Fixpoint split (sep : Ascii.ascii) (s : string) : list string :=
  match s with
  | EmptyString => [EmptyString]
  | String c s' =>
      if decide (c = sep) then EmptyString :: split sep s'
      else match split sep s' with
           | [] => [String c EmptyString]
           | piece :: pieces => String c piece :: pieces
           end
  end.

Definition file_type (file : string) : string :=
  List.last (split "."%char file) EmptyString.

(** *** XML documents, as ElementTree hands them over *)

#[warnings="-register-all"]
Inductive Element : Type :=
  | Elem (tag : string) (text : option string) (children : list Element).

Definition tag (e : Element) : string := let 'Elem t _ _ := e in t.
Definition text (e : Element) : option string := let 'Elem _ x _ := e in x.
Definition children (e : Element) : list Element := let 'Elem _ _ cs := e in cs.

Definition text_cell (e : Element) : cell :=
  match text e with
  | Some s => CStr s
  | None => CNone
  end.

(** [{child.tag: child.text for child in elem}] *)
Definition row_of_element (elem : Element) : list (string * cell) :=
  foldl (λ d child, dict_set (tag child) (text_cell child) d) [] (children elem).

(** *** [DataExtractorFactory] *)

Inductive extractor : Type :=
  | CSVExtractor
  | JSONExtractor
  | XMLExtractor.

(** What [get_extractor] returns: an extractor instance, or the function
    [lambda: ValueError("Unsupported file type")]. *)
Inductive resolved : Type :=
  | Instance_of (e : extractor)
  | Lambda_ValueError.

(** Calling the lambda builds the exception; it does not raise it. *)
Definition call_lambda : exn := Exn ValueError "Unsupported file type".

Definition extractors : list (string * resolved) :=
  [("csv", Instance_of CSVExtractor);
   ("json", Instance_of JSONExtractor);
   ("xml", Instance_of XMLExtractor)].

Definition get_extractor (ft : string) : resolved :=
  default Lambda_ValueError (dict_get ft extractors).

Record ETLProcess : Type := mkETLProcess { output_file : string }.

Section Program.
(** The libraries and the file system the program runs against. *)

(** pandas' parser of a number written in a string. *)
Variable str_to_float : string → option float.
(** How pandas prints a float that is not [NaN]. *)
Variable float_repr : float → string.
(** [aiofiles.open(path, mode='r')] followed by [f.read()]. *)
Variable open_read : string → result string.
(** [pd.read_csv(io.StringIO(content))] *)
Variable read_csv : string → result DataFrame.
(** [pd.read_json(io.StringIO(content), lines=True)] *)
Variable read_json : string → result DataFrame.
(** [ET.parse(path).getroot()] *)
Variable ET_parse : string → result Element.
(** [glob.glob(pattern)] *)
Variable glob : string → list string.
(** [os.makedirs(os.path.dirname(path), exist_ok=True)] *)
Variable makedirs : string → result unit.
(** Opening [path] for writing. *)
Variable open_write : string → result unit.

(** *** The extractors *)

Definition CSVExtractor_extract (path : string) : io DataFrame :=
  log_function (Some "Extracting CSV data") "extract"
    (content ← lift (open_read path);
     lift (read_csv content)).

Definition JSONExtractor_extract (path : string) : io DataFrame :=
  log_function (Some "Extracting JSON data") "extract"
    (content ← lift (open_read path);
     lift (read_json content)).

Definition XMLExtractor_extract (path : string) : io DataFrame :=
  log_function (Some "Extracting XML data") "extract"
    (root ← lift (ET_parse path);
     mret (DataFrame_of_dicts (row_of_element <$> children root))).

(** [extractor.extract(file)] on what [get_extractor] returned. A
    function has no attribute [extract]. *)
Definition extract (obj : resolved) (path : string) : io DataFrame :=
  match obj with
  | Instance_of CSVExtractor => CSVExtractor_extract path
  | Instance_of JSONExtractor => JSONExtractor_extract path
  | Instance_of XMLExtractor => XMLExtractor_extract path
  | Lambda_ValueError =>
      raise (Exn AttributeError "'function' object has no attribute 'extract'")
  end.

(** *** [ETLProcess] *)

(** The three [except] clauses of [process_file], in their order. *)
Definition process_file_handler (file : string) (e : exn) : io unit :=
  match exc_type e with
  | ValueError =>
      log ("ValueError processing file " +:+ file +:+ ": " +:+ exc_msg e)
  | FileNotFoundError =>
      log ("FileNotFoundError: " +:+ exc_msg e)
  | _ =>
      log ("Error processing file " +:+ file +:+ ": " +:+ exc_msg e)
  end.

Definition process_file (self : ETLProcess) (file : string) : io DataFrame :=
  log_function (Some "Processing file") "process_file"
    (try_except
       (extract (get_extractor (file_type file)) file)
       (λ e, process_file_handler file e;; mret DataFrame_empty)).

(** [df] is the caller's frame, by reference: the first statement
    assigns to its columns in place. *)
Definition transform_data (self : ETLProcess) (df : ref) : io ref :=
  log_function (Some "Transforming data") "transform_data"
    (d ← get_frame df;
     selected ← lift (getitem d ["height"; "weight"]);
     converted ← lift (multiply (apply_to_numeric str_to_float selected)
                         [0.0254%float; 0.453592%float]);
     d' ← lift (setitem d ["height"; "weight"] converted);
     put_frame df d';;
     d'' ← get_frame df;
     out ← lift (getitem d'' ["name"; "height"; "weight"]);
     new_frame out).

Definition write_csv (path : string) (content : csv_records) : io unit :=
  lift (open_write path);;
  put_file path content.

Definition load_data (self : ETLProcess) (df : ref) : io unit :=
  log_function (Some "Loading data") "load_data"
    (lift (makedirs (output_file self));;
     d ← get_frame df;
     write_csv (output_file self) (to_csv float_repr d)).

(** [order] is the order in which the event loop finishes the tasks. *)
Definition run (self : ETLProcess) (order : list nat) : io unit :=
  log_function (Some "ETL Process") "run"
    (let files := glob "./unzipped_folder/*" in
     let tasks := process_file self <$> files in
     results ← gather order tasks;
     aggregated ← lift (pd_concat results);
     df ← new_frame aggregated;
     out ← transform_data self df;
     load_data self out).
End Program.

(** * Properties *)

(** ** Dicts *)

Section DictFacts.
Context {V : Type}.
Implicit Types (k : string) (v : V) (d : list (string * V)).

Lemma dict_get_set_eq k v d : dict_get k (dict_set k v d) = Some v.
Proof.
  induction d as [|[k' v'] d IH]; csimpl.
  - by rewrite decide_True.
  - destruct (decide (k' = k)) as [->|Hne]; csimpl.
    + by rewrite decide_True.
    + by rewrite decide_False.
Qed.

Lemma dict_get_set_ne k k' v d :
  k ≠ k' → dict_get k' (dict_set k v d) = dict_get k' d.
Proof.
  intros Hne. induction d as [|[k0 v0] d IH]; csimpl.
  - by rewrite decide_False.
  - destruct (decide (k0 = k)) as [->|Hne0]; csimpl.
    + by rewrite !decide_False.
    + destruct (decide (k0 = k')); auto.
Qed.

Lemma dict_get_is_Some k d : is_Some (dict_get k d) ↔ k ∈ d.*1.
Proof.
  induction d as [|[k' v'] d IH]; csimpl.
  - split; [intros [? [=]] | by intros ?%elem_of_nil].
  - destruct (decide (k' = k)) as [->|Hne].
    + split; [intros _; left | by eauto].
    + rewrite IH, elem_of_cons. split; [by right | by intros [?|?]].
Qed.

Lemma dict_get_None k d : dict_get k d = None ↔ k ∉ d.*1.
Proof. rewrite <- dict_get_is_Some, eq_None_not_Some. done. Qed.

Lemma dict_set_keys k v d : k ∈ d.*1 → (dict_set k v d).*1 = d.*1.
Proof.
  induction d as [|[k' v'] d IH]; csimpl.
  - by intros ?%elem_of_nil.
  - destruct (decide (k' = k)) as [->|Hne]; csimpl; [done|].
    rewrite elem_of_cons. intros [?|Hin]; [congruence|].
    by rewrite IH.
Qed.

Lemma dict_set_keys_new k v d : k ∉ d.*1 → (dict_set k v d).*1 = (d.*1) ++ [k].
Proof.
  induction d as [|[k' v'] d IH]; csimpl; [done|].
  rewrite not_elem_of_cons. intros [Hne Hnin].
  rewrite decide_False by done. csimpl. by rewrite IH.
Qed.
End DictFacts.

(** ** The transform *)

(** A column of cells coerced to numbers and scaled by [factor]. *)
Definition converted (str_to_float : string → option float) (factor : float)
  (col : list cell) : list cell :=
  (λ c, CNum (to_numeric str_to_float c * factor)%float) <$> col.

Section TransformFacts.
Variable str_to_float : string → option float.
Variable self : ETLProcess.

Lemma select_height_weight d hs ws :
  get_col "height" d = Some hs → get_col "weight" d = Some ws →
  select d ["height"; "weight"] = Some [("height", hs); ("weight", ws)].
Proof. unfold select. intros Hh Hw. cbn. by rewrite Hh, Hw. Qed.

(** What the frame behind [df] holds once [transform_data] has assigned
    to its columns. *)
Definition assigned (d : DataFrame) (hs ws : list cell) : DataFrame :=
  mkDataFrame (nrows d)
    (dict_set "weight" (converted str_to_float 0.453592 ws)
       (dict_set "height" (converted str_to_float 0.0254 hs) (data d))).

(** The frame [transform_data] returns. *)
Definition returned (d : DataFrame) (ns hs ws : list cell) : DataFrame :=
  mkDataFrame (nrows d)
    [("name", ns);
     ("height", converted str_to_float 0.0254 hs);
     ("weight", converted str_to_float 0.453592 ws)].

Lemma transform_data_eq df w d ns hs ws :
  frames w !! df = Some d →
  get_col "name" d = Some ns →
  get_col "height" d = Some hs →
  get_col "weight" d = Some ws →
  transform_data str_to_float self df w =
    (Ok (length (frames w)),
     mkWorld
       (log_file w ++ ["transform_data started. Context: Transforming data";
                       "transform_data completed. Context: Transforming data"])
       (<[df := assigned d hs ws]> (frames w) ++ [returned d ns hs ws])
       (fs w)).
Proof.
  intros Hdf Hn Hh Hw.
  unfold transform_data, log_function, mbind, mret, io_mbind, io_mret, io_bind.
  unfold log, get_frame at 1. cbn [frames log_file fs]. rewrite Hdf.
  unfold lift at 1. unfold getitem at 1.
  rewrite (select_height_weight _ _ _ Hh Hw).
  unfold lift, multiply, setitem, put_frame. cbn.
  rewrite decide_True by done. cbn. rewrite decide_True by done.
  unfold get_frame. cbn [frames].
  rewrite list_lookup_insert_eq by eauto using lookup_lt_Some.
  rewrite <- !list_fmap_compose.
  match goal with
  | |- context [<[df := ?x]> _] => change x with (assigned d hs ws)
  end.
  assert (select (assigned d hs ws) ["name"; "height"; "weight"]
          = Some (data (returned d ns hs ws))) as Hsel.
  { unfold select, get_col, assigned. cbn.
    rewrite dict_get_set_eq.
    rewrite dict_get_set_ne, dict_get_set_eq by done.
    rewrite !dict_get_set_ne by done.
    unfold get_col in Hn. by rewrite Hn. }
  unfold getitem. rewrite Hsel.
  unfold new_frame, io_ret. cbn. by rewrite length_insert, <- app_assoc.
Qed.

(** The number a cell is coerced to, when there is one. *)
Definition coerced (c : cell) : option float :=
  match c with
  | CNone => None
  | CStr s => str_to_float s
  | CNum x => Some x
  end.

Lemma to_numeric_coerced c : to_numeric str_to_float c = default nan (coerced c).
Proof. by destruct c. Qed.

Lemma converted_lookup factor col i c :
  col !! i = Some c →
  converted str_to_float factor col !! i =
    Some (CNum (default nan (coerced c) * factor)%float).
Proof.
  intros Hc. unfold converted.
  by rewrite list_lookup_fmap, Hc, <- to_numeric_coerced.
Qed.

Lemma scaled_cell factor col i c :
  col !! i = Some c →
  match coerced c with
  | Some x => converted str_to_float factor col !! i = Some (CNum (x * factor)%float)
  | None => converted str_to_float factor col !! i = Some (CNum (nan * factor)%float)
  end.
Proof.
  intros Hc. rewrite (converted_lookup _ _ _ _ Hc). by destruct (coerced c).
Qed.

Lemma assigned_keys d hs ws :
  "height" ∈ columns d → "weight" ∈ columns d →
  columns (assigned d hs ws) = columns d.
Proof.
  intros Hh Hw. unfold columns, assigned. cbn [data].
  rewrite dict_set_keys; rewrite dict_set_keys; done.
Qed.

Lemma get_col_Some_columns l d v : get_col l d = Some v → l ∈ columns d.
Proof. intros Hl. apply dict_get_is_Some. unfold get_col in Hl. eauto. Qed.
End TransformFacts.

Lemma nan_times_height : (nan * 0.0254)%float = nan.
Proof. reflexivity. Qed.

Lemma nan_times_weight : (nan * 0.453592)%float = nan.
Proof. reflexivity. Qed.

Lemma NaN_isna : isna NaN = true.
Proof. reflexivity. Qed.

Lemma NaN_not_zero : NaN ≠ CNum 0.
Proof.
  unfold NaN. intros H. assert (PrimFloat.is_nan nan = PrimFloat.is_nan 0) as Hn.
  { congruence. }
  vm_compute in Hn. discriminate.
Qed.

(** ** Example inputs *)

(** A parser that knows the one string ["70"]. *)
Definition parse_seventy (s : string) : option float :=
  if decide (s = "70") then Some 70%float else None.

(** One row: a height written as a string, a weight that is no number, and
    a column the transform does not keep. *)
Definition bob_frame : DataFrame :=
  mkDataFrame 1
    [("name", [CStr "Bob"]);
     ("age", [CNum 41]);
     ("height", [CStr "70"]);
     ("weight", [CStr "heavy"])].

Definition bob_world : world := mkWorld [] [bob_frame] ∅.

Definition etl : ETLProcess := mkETLProcess "/srv/etl/output/result.csv".

(** ** Claims on [transform_data] *)

Section TransformClaims.
Variable str_to_float : string → option float.
Variable self : ETLProcess.

Lemma returned_lookup w df d ns hs ws :
  (<[df := assigned str_to_float d hs ws]> (frames w)
     ++ [returned str_to_float d ns hs ws]) !! length (frames w)
  = Some (returned str_to_float d ns hs ws).
Proof.
  rewrite lookup_app_r by (rewrite length_insert; lia).
  by rewrite length_insert, Nat.sub_diag.
Qed.

Lemma returned_height d ns hs ws i :
  cell_at (returned str_to_float d ns hs ws) "height" i
  = converted str_to_float 0.0254 hs !! i.
Proof. reflexivity. Qed.

Lemma returned_weight d ns hs ws i :
  cell_at (returned str_to_float d ns hs ws) "weight" i
  = converted str_to_float 0.453592 ws !! i.
Proof. reflexivity. Qed.

(** C5. On a frame that has the columns [name], [height] and [weight],
    [transform_data] does not raise; in the frame it returns, a [height]
    cell that is coerced to the number [h] holds [h * 0.0254] and a
    [weight] cell coerced to [x] holds [x * 0.453592] (the float64
    products), and a cell that cannot be coerced holds [NaN], which is
    null and is not [0]. *)
Theorem transform_data_numeric_law df w d ns hs ws :
  frames w !! df = Some d →
  get_col "name" d = Some ns →
  get_col "height" d = Some hs →
  get_col "weight" d = Some ws →
  ∃ out w' t,
    transform_data str_to_float self df w = (Ok out, w') ∧
    frames w' !! out = Some t ∧
    (∀ i c, hs !! i = Some c →
       match coerced str_to_float c with
       | Some h => cell_at t "height" i = Some (CNum (h * 0.0254)%float)
       | None => cell_at t "height" i = Some NaN
       end) ∧
    (∀ i c, ws !! i = Some c →
       match coerced str_to_float c with
       | Some x => cell_at t "weight" i = Some (CNum (x * 0.453592)%float)
       | None => cell_at t "weight" i = Some NaN
       end) ∧
    isna NaN = true ∧ NaN ≠ CNum 0.
Proof.
  intros Hdf Hn Hh Hw.
  eexists _, _, _. split; [by apply transform_data_eq|].
  cbn [frames]. split; [apply returned_lookup|].
  split; [|split; [|split; [apply NaN_isna | apply NaN_not_zero]]].
  - intros i c Hc. rewrite returned_height.
    pose proof (scaled_cell str_to_float 0.0254 hs i c Hc) as Hs.
    destruct (coerced str_to_float c); [done|].
    by rewrite nan_times_height in Hs.
  - intros i c Hc. rewrite returned_weight.
    pose proof (scaled_cell str_to_float 0.453592 ws i c Hc) as Hs.
    destruct (coerced str_to_float c); [done|].
    by rewrite nan_times_weight in Hs.
Qed.

Lemma df_wf_column_length d l v :
  df_wf d → get_col l d = Some v → length v = nrows d.
Proof.
  intros [_ Hlen]. unfold get_col. induction (data d) as [|[l' v'] cols IH]; [done|].
  apply Forall_cons in Hlen as [Hv Hcols]. cbn.
  destruct (decide (l' = l)); [by intros [= <-] | by apply IH].
Qed.

Lemma converted_length factor col :
  length (converted str_to_float factor col) = length col.
Proof. unfold converted. by rewrite length_fmap. Qed.

Lemma returned_wf d ns hs ws :
  df_wf d →
  get_col "name" d = Some ns →
  get_col "height" d = Some hs →
  get_col "weight" d = Some ws →
  df_wf (returned str_to_float d ns hs ws).
Proof.
  intros Hwf Hn Hh Hw. split.
  - by apply (bool_decide_unpack _).
  - cbn [returned data nrows].
    repeat (apply Forall_cons; split); cbn [snd];
      rewrite ?converted_length; eauto using df_wf_column_length.
Qed.

(** C6. On a frame that has the columns [name], [height] and [weight],
    the frame [transform_data] returns has the columns [name], [height],
    [weight], in this order and no other; it has as many rows as the
    frame given, and its [name] column is the one given, cell by cell,
    null cells included. *)
Theorem transform_data_columns df w d ns hs ws :
  frames w !! df = Some d →
  df_wf d →
  get_col "name" d = Some ns →
  get_col "height" d = Some hs →
  get_col "weight" d = Some ws →
  ∃ out w' t,
    transform_data str_to_float self df w = (Ok out, w') ∧
    frames w' !! out = Some t ∧
    columns t = ["name"; "height"; "weight"] ∧
    (∀ l, l ∈ columns d → l ∉ ["name"; "height"; "weight"] → get_col l t = None) ∧
    nrows t = nrows d ∧
    (∀ i, cell_at t "name" i = cell_at d "name" i) ∧
    df_wf t.
Proof.
  intros Hdf Hwf Hn Hh Hw.
  eexists _, _, _. split; [by apply transform_data_eq|].
  cbn [frames]. split; [apply returned_lookup|].
  split; [done|]. split; [|split; [done|split]].
  - intros l _ Hl. apply dict_get_None. exact Hl.
  - intros i. unfold cell_at. by rewrite Hn.
  - by apply returned_wf.
Qed.

(** C7, as amended. [transform_data] returns a frame of its own, behind a
    fresh reference, and it assigns to the frame it was given: after the
    call that frame has the rows, the labels and every column it had,
    except that its [height] and [weight] columns hold the converted
    values. No other frame of the store changes. *)
Theorem transform_data_assigns_in_place df w d ns hs ws :
  frames w !! df = Some d →
  get_col "name" d = Some ns →
  get_col "height" d = Some hs →
  get_col "weight" d = Some ws →
  ∃ out w' d',
    transform_data str_to_float self df w = (Ok out, w') ∧
    out ≠ df ∧ frames w !! out = None ∧
    frames w' !! df = Some d' ∧
    nrows d' = nrows d ∧
    columns d' = columns d ∧
    (∀ l, l ≠ "height" → l ≠ "weight" → get_col l d' = get_col l d) ∧
    get_col "height" d' = Some (converted str_to_float 0.0254 hs) ∧
    get_col "weight" d' = Some (converted str_to_float 0.453592 ws) ∧
    (∀ r, r ≠ df → r ≠ out → frames w' !! r = frames w !! r).
Proof.
  intros Hdf Hn Hh Hw.
  pose proof (lookup_lt_Some _ _ _ Hdf) as Hlt.
  eexists _, _, (assigned str_to_float d hs ws).
  split; [by apply transform_data_eq|].
  cbn [frames]. split; [lia|]. split; [by apply lookup_ge_None_2|].
  split; [|split; [done|split; [|split; [|split; [|split]]]]].
  - rewrite lookup_app_l by (rewrite length_insert; lia).
    by apply list_lookup_insert_eq.
  - apply assigned_keys; eauto using get_col_Some_columns.
  - intros l Hlh Hlw. unfold get_col, assigned. cbn [data].
    by rewrite !dict_get_set_ne.
  - unfold get_col, assigned. cbn [data].
    by rewrite dict_get_set_ne, dict_get_set_eq.
  - unfold get_col, assigned. cbn [data]. by rewrite dict_get_set_eq.
  - intros r Hr Hout.
    destruct (decide (r < length (frames w))) as [Hin|Hge].
    + rewrite lookup_app_l by (rewrite length_insert; lia).
      by apply list_lookup_insert_ne.
    + rewrite !lookup_ge_None_2; [done|lia|].
      rewrite length_app, length_insert. cbn. lia.
Qed.
End TransformClaims.

Lemma transform_data_numeric_law_witness :
  ∃ out w' t,
    transform_data parse_seventy etl 0 bob_world = (Ok out, w') ∧
    frames w' !! out = Some t ∧
    (∀ i c, [CStr "70"] !! i = Some c →
       match coerced parse_seventy c with
       | Some h => cell_at t "height" i = Some (CNum (h * 0.0254)%float)
       | None => cell_at t "height" i = Some NaN
       end) ∧
    (∀ i c, [CStr "heavy"] !! i = Some c →
       match coerced parse_seventy c with
       | Some x => cell_at t "weight" i = Some (CNum (x * 0.453592)%float)
       | None => cell_at t "weight" i = Some NaN
       end) ∧
    isna NaN = true ∧ NaN ≠ CNum 0.
Proof.
  apply (transform_data_numeric_law parse_seventy etl 0 bob_world bob_frame
           [CStr "Bob"]); reflexivity.
Defined.

Lemma bob_frame_wf : df_wf bob_frame.
Proof.
  split.
  - by apply (bool_decide_unpack _).
  - repeat (apply Forall_cons; split; [reflexivity|]). apply Forall_nil_2.
Qed.

Lemma transform_data_columns_witness :
  ∃ out w' t,
    transform_data parse_seventy etl 0 bob_world = (Ok out, w') ∧
    frames w' !! out = Some t ∧
    columns t = ["name"; "height"; "weight"] ∧
    (∀ l, l ∈ columns bob_frame → l ∉ ["name"; "height"; "weight"] →
          get_col l t = None) ∧
    nrows t = nrows bob_frame ∧
    (∀ i, cell_at t "name" i = cell_at bob_frame "name" i) ∧
    df_wf t.
Proof.
  apply (transform_data_columns parse_seventy etl 0 bob_world bob_frame
           [CStr "Bob"] [CStr "70"] [CStr "heavy"]);
    first [reflexivity | apply bob_frame_wf].
Defined.

Lemma transform_data_assigns_in_place_witness :
  ∃ out w' d',
    transform_data parse_seventy etl 0 bob_world = (Ok out, w') ∧
    out ≠ 0 ∧ frames bob_world !! out = None ∧
    frames w' !! 0 = Some d' ∧
    nrows d' = nrows bob_frame ∧
    columns d' = columns bob_frame ∧
    (∀ l, l ≠ "height" → l ≠ "weight" → get_col l d' = get_col l bob_frame) ∧
    get_col "height" d' = Some (converted parse_seventy 0.0254 [CStr "70"]) ∧
    get_col "weight" d' = Some (converted parse_seventy 0.453592 [CStr "heavy"]) ∧
    (∀ r, r ≠ 0 → r ≠ out → frames w' !! r = frames bob_world !! r).
Proof.
  apply (transform_data_assigns_in_place parse_seventy etl 0 bob_world bob_frame
           [CStr "Bob"]); reflexivity.
Defined.

(** C7, as the claim states it, fails: the caller's frame read [70] in
    its [height] column before the call and reads [1.778] after it. *)
Lemma transform_data_overwrites_argument :
  let after := transform_data parse_seventy etl 0 bob_world in
  is_ok after.1 = true ∧
  cell_at bob_frame "height" 0 = Some (CStr "70") ∧
  (d' ← frames after.2 !! 0; cell_at d' "height" 0) = Some (CNum 1.778) ∧
  frames after.2 !! 0 ≠ frames bob_world !! 0.
Proof.
  cbv zeta. split; [reflexivity|]. split; [reflexivity|]. split; [reflexivity|].
  intros H. apply (f_equal (λ o, d' ← o; cell_at d' "height" 0)) in H.
  vm_compute in H. discriminate.
Qed.

(** ** Computations that only write to the log *)

Definition blank : world := mkWorld [] [] ∅.

Definition append_lines (lines : list string) (w : world) : world :=
  mkWorld (log_file w ++ lines) (frames w) (fs w).

(** [t] reads nothing of the world and only appends lines to the log: run
    from any world it does what it does from the blank one. *)
Definition log_only {A} (t : io A) : Prop :=
  ∀ w, t w = ((t blank).1, append_lines (log_file (t blank).2) w).

Lemma append_lines_app l1 l2 w :
  append_lines l2 (append_lines l1 w) = append_lines (l1 ++ l2) w.
Proof. unfold append_lines. cbn. by rewrite app_assoc. Qed.

Lemma append_lines_nil w : append_lines [] w = w.
Proof. destruct w. unfold append_lines. cbn. by rewrite app_nil_r. Qed.

Section LogOnly.
Context {A B : Type}.

Lemma log_only_ret (a : A) : log_only (mret a).
Proof. intros w. cbn. by rewrite append_lines_nil. Qed.

Lemma log_only_lift (r : result A) : log_only (lift r).
Proof. intros w. cbn. by rewrite append_lines_nil. Qed.

Lemma log_only_raise (e : exn) : log_only (@raise A e).
Proof. intros w. cbn. by rewrite append_lines_nil. Qed.

Lemma log_only_bind (m : io A) (f : A → io B) :
  log_only m → (∀ a, log_only (f a)) → log_only (m ≫= f).
Proof.
  intros Hm Hf w. unfold mbind, io_mbind, io_bind.
  rewrite (Hm w). destruct (m blank) as [[a|e] wb]; cbn [fst snd]; [|done].
  rewrite (Hf a (append_lines _ w)), (Hf a wb). cbn [fst snd].
  by rewrite append_lines_app.
Qed.

Lemma log_only_try_except (body : io A) (handler : exn → io A) :
  log_only body → (∀ e, log_only (handler e)) → log_only (try_except body handler).
Proof.
  intros Hm Hh w. unfold try_except.
  rewrite (Hm w). destruct (body blank) as [[a|e] wb]; cbn [fst snd]; [done|].
  rewrite (Hh e (append_lines _ w)), (Hh e wb). cbn [fst snd].
  by rewrite append_lines_app.
Qed.
End LogOnly.

Lemma log_only_log msg : log_only (log msg).
Proof. done. Qed.

Lemma log_only_log_function {A} context name (func : io A) :
  log_only func → log_only (log_function context name func).
Proof.
  intros Hf. unfold log_function.
  apply log_only_bind; [apply log_only_log|]. intros _.
  apply log_only_bind; [done|]. intros a.
  apply log_only_bind; [apply log_only_log|]. intros _.
  apply log_only_ret.
Qed.

(** [log_function] around a body, run from [w]. *)
Lemma log_function_eq {A} context name (func : io A) w :
  log_function context name func w =
    match func (append_lines [name +:+ " started. " +:+ context_info context] w) with
    | (Ok a, w') =>
        (Ok a, append_lines [name +:+ " completed. " +:+ context_info context] w')
    | (Raise e, w') => (Raise e, w')
    end.
Proof.
  unfold log_function, mbind, io_mbind, io_bind, log. cbn.
  fold (append_lines [name +:+ " started. " +:+ context_info context] w).
  by destruct (func _) as [[a|e] w'].
Qed.

(** ** One file, one task *)

(** The line the [except] clause that matches [e] writes. *)
Definition failure_line (file : string) (e : exn) : string :=
  match exc_type e with
  | ValueError => "ValueError processing file " +:+ file +:+ ": " +:+ exc_msg e
  | FileNotFoundError => "FileNotFoundError: " +:+ exc_msg e
  | _ => "Error processing file " +:+ file +:+ ": " +:+ exc_msg e
  end.

Definition process_file_started : string :=
  "process_file started. Context: Processing file".

Definition process_file_completed : string :=
  "process_file completed. Context: Processing file".

Section ProcessFile.
Variable open_read : string → result string.
Variable read_csv : string → result DataFrame.
Variable read_json : string → result DataFrame.
Variable ET_parse : string → result Element.
Variable self : ETLProcess.

Local Abbreviation extract' := (extract open_read read_csv read_json ET_parse).
Local Abbreviation process_file' := (process_file open_read read_csv read_json ET_parse).

Lemma process_file_handler_eq file e :
  process_file_handler file e = log (failure_line file e).
Proof. by destruct e as [[] msg]. Qed.

Lemma process_file_eq file w :
  process_file' self file w =
    match extract' (get_extractor (file_type file)) file
            (append_lines [process_file_started] w) with
    | (Ok df, w') => (Ok df, append_lines [process_file_completed] w')
    | (Raise e, w') =>
        (Ok DataFrame_empty,
         append_lines [failure_line file e; process_file_completed] w')
    end.
Proof.
  unfold process_file. rewrite log_function_eq.
  change ("process_file" +:+ " started. " +:+ context_info (Some "Processing file"))
    with process_file_started.
  change ("process_file" +:+ " completed. " +:+ context_info (Some "Processing file"))
    with process_file_completed.
  unfold try_except.
  destruct (extract' _ file _) as [[df|e] w']; [done|].
  unfold mbind, io_mbind, io_bind. rewrite process_file_handler_eq. cbn.
  unfold append_lines. cbn. by rewrite <- app_assoc.
Qed.

Lemma process_file_is_ok file w : is_ok (process_file' self file w).1 = true.
Proof. rewrite process_file_eq. by destruct (extract' _ file _) as [[df|e] w']. Qed.

Lemma log_only_extract obj path : log_only (extract' obj path).
Proof.
  destruct obj as [[]|]; cbn [extract]; [..|apply log_only_raise];
    apply log_only_log_function;
    (apply log_only_bind; [apply log_only_lift|intros ?]);
    first [apply log_only_lift | apply log_only_ret].
Qed.

Lemma log_only_process_file file : log_only (process_file' self file).
Proof.
  apply log_only_log_function, log_only_try_except; [apply log_only_extract|].
  intros e. apply log_only_bind; [|intros ?; apply log_only_ret].
  rewrite process_file_handler_eq. apply log_only_log.
Qed.

(** What the task of [file] returns and what it writes to the log: both
    are the same from every world. *)
Definition file_result (file : string) : DataFrame :=
  match (process_file' self file blank).1 with
  | Ok df => df
  | Raise _ => DataFrame_empty
  end.

Definition file_log (file : string) : list string :=
  log_file (process_file' self file blank).2.

Lemma process_file_returns file w :
  process_file' self file w =
    (Ok (file_result file), append_lines (file_log file) w).
Proof.
  rewrite (log_only_process_file file w). unfold file_result, file_log.
  pose proof (process_file_is_ok file blank) as Hok.
  by destruct (process_file' self file blank) as [[df|e] wb].
Qed.
End ProcessFile.

(** ** [gather] collects by dispatch order *)

Section Gather.
Context {A : Type}.
(** The value and the log lines of the task dispatched i-th. *)
Variable value : nat → A.
Variable lines : nat → list string.

Definition returns_its_value (p : nat * io A) : Prop :=
  ∀ w, p.2 w = (Ok (value p.1), append_lines (lines p.1) w).

Lemma gather_loop_returns n : ∀ pending order slots w,
  length pending = n →
  NoDup pending.*1 →
  Forall returns_its_value pending →
  ∃ slots' L,
    gather_loop n pending order slots w = (Ok slots', append_lines L w) ∧
    length slots' = length slots ∧
    (∀ j, j ∈ pending.*1 → j < length slots → slots' !! j = Some (Some (value j))) ∧
    (∀ j, j ∉ pending.*1 → slots' !! j = slots !! j) ∧
    (∀ j line, j ∈ pending.*1 → line ∈ lines j → line ∈ L).
Proof.
  induction n as [|n IH]; intros pending order slots w Hlen Hnd Hall.
  - apply nil_length_inv in Hlen as ->. exists slots, [].
    cbn. rewrite append_lines_nil.
    split; [done|]. split; [done|]. split; [|split; [done|]].
    + intros j Hj. by apply elem_of_nil in Hj.
    + intros j line Hj. by apply elem_of_nil in Hj.
  - destruct pending as [|p rest]; [done|].
    cbn [gather_loop].
    set (k := hd 0 order `mod` length (p :: rest)).
    assert (k < length (p :: rest)) as Hk.
    { apply Nat.mod_upper_bound. cbn. lia. }
    destruct (lookup_lt_is_Some_2 _ _ Hk) as [[i t] Hit].
    rewrite Hit. cbn [default].
    destruct (list_elem_of_split_length _ _ _ Hit) as (l1 & l2 & Hsplit & Hkl).
    rewrite Hsplit in *. rewrite Hkl, delete_middle. clear Hsplit Hit Hk.
    apply Forall_app in Hall as [Hall1 Hall2].
    apply Forall_cons in Hall2 as [Ht Hall2].
    rewrite fmap_app, fmap_cons in Hnd. cbn [fst] in Hnd.
    apply NoDup_app in Hnd as (Hnd1 & Hnd12 & Hnd2).
    apply NoDup_cons in Hnd2 as [Hi2 Hnd2].
    assert (i ∉ l1.*1) as Hi1.
    { intros Hin. apply (Hnd12 _ Hin). left. }
    destruct (IH (l1 ++ l2) (tail order) (<[i := Some (value i)]> slots)
                (append_lines (lines i) w)) as (slots' & L & Hrun & Hl & Hin & Hout & Hlog).
    { rewrite length_app in *. cbn in Hlen. lia. }
    { rewrite fmap_app. apply NoDup_app. split; [done|]. split; [|done].
      intros x Hx1 Hx2. apply (Hnd12 _ Hx1). by right. }
    { by apply Forall_app. }
    exists slots', (lines i ++ L).
    unfold returns_its_value in Ht. cbn [fst snd] in Ht.
    unfold mbind, io_mbind, io_bind, id. cbn [snd fst]. rewrite (Ht w).
    cbn [fst snd]. rewrite Hrun, append_lines_app.
    rewrite length_insert in Hl, Hin.
    split; [done|]. split; [done|].
    rewrite !fmap_app, !fmap_cons. cbn [fst].
    split; [|split].
    + intros j Hj Hjlt.
      destruct (decide (j = i)) as [->|Hne].
      * rewrite Hout by (rewrite fmap_app, elem_of_app; tauto).
        by apply list_lookup_insert_eq.
      * apply Hin; [|done]. rewrite fmap_app.
        rewrite !elem_of_app, elem_of_cons in Hj.
        rewrite elem_of_app. tauto.
    + intros j Hj. rewrite !elem_of_app, elem_of_cons in Hj.
      rewrite Hout by (rewrite fmap_app, elem_of_app; tauto).
      apply list_lookup_insert_ne. intros ->. tauto.
    + intros j line Hj Hline. rewrite elem_of_app.
      destruct (decide (j = i)) as [->|Hne]; [by left|right].
      apply (Hlog j); [|done]. rewrite fmap_app.
      rewrite !elem_of_app, elem_of_cons in Hj.
      rewrite elem_of_app. tauto.
Qed.

Lemma omap_id_Some (l : list nat) :
  omap id ((λ i, Some (value i)) <$> l) = value <$> l.
Proof. induction l as [|i l IH]; [done|]. cbn. by rewrite IH. Qed.

Lemma gather_returns order (tasks : list (io A)) w :
  (∀ i t, tasks !! i = Some t → returns_its_value (i, t)) →
  ∃ L,
    gather order tasks w = (Ok (value <$> seq 0 (length tasks)), append_lines L w) ∧
    (∀ i line, i < length tasks → line ∈ lines i → line ∈ L).
Proof.
  intros Htasks.
  assert ((imap pair tasks).*1 = seq 0 (length tasks)) as Hkeys.
  { apply list_eq. intros i.
    rewrite list_lookup_fmap, list_lookup_imap.
    destruct (tasks !! i) as [t|] eqn:Ht; cbn.
    - apply lookup_lt_Some in Ht. by rewrite lookup_seq_lt.
    - apply lookup_ge_None in Ht. by rewrite lookup_seq_ge. }
  destruct (gather_loop_returns (length tasks) (imap pair tasks) order
              (replicate (length tasks) None) w)
    as (slots' & L & Hrun & Hl & Hin & _ & Hlog).
  { by rewrite length_imap. }
  { rewrite Hkeys. apply NoDup_seq. }
  { apply Forall_lookup. intros i [j t]. rewrite list_lookup_imap.
    destruct (tasks !! i) as [t'|] eqn:Ht; [|done].
    intros [= <- <-]. by apply Htasks. }
  exists L. unfold gather, mbind, io_mbind, io_bind. rewrite Hrun.
  rewrite length_replicate in Hl, Hin. rewrite Hkeys in Hin, Hlog.
  assert (slots' = (λ i, Some (value i)) <$> seq 0 (length tasks)) as ->.
  { apply list_eq. intros j. rewrite list_lookup_fmap.
    destruct (decide (j < length tasks)) as [Hj|Hj].
    - rewrite lookup_seq_lt by done. cbn. apply Hin; [|done].
      apply elem_of_seq. lia.
    - rewrite lookup_seq_ge by lia. cbn. apply lookup_ge_None. lia. }
  rewrite omap_id_Some. split; [done|].
  intros i line Hi. apply Hlog, elem_of_seq. lia.
Qed.
End Gather.

(** ** [pd.concat] *)

Lemma elem_of_add_labels ls : ∀ acc l,
  l ∈ foldl add_label acc ls ↔ l ∈ acc ∨ l ∈ ls.
Proof.
  induction ls as [|x ls IH]; intros acc l; cbn.
  - rewrite elem_of_nil. tauto.
  - rewrite IH, elem_of_cons. unfold add_label.
    destruct (decide (x ∈ acc)) as [Hx|Hx].
    + split; [tauto|]. intros [?|[->|?]]; tauto.
    + rewrite elem_of_app, list_elem_of_singleton. tauto.
Qed.

Lemma NoDup_add_labels ls : ∀ acc, NoDup acc → NoDup (foldl add_label acc ls).
Proof.
  induction ls as [|x ls IH]; intros acc Hacc; cbn; [done|].
  apply IH. unfold add_label. destruct (decide (x ∈ acc)) as [Hx|Hx]; [done|].
  apply NoDup_app. split; [done|]. split; [|apply NoDup_singleton].
  intros y Hy ->%list_elem_of_singleton. done.
Qed.

Lemma elem_of_concat {X} (ls : list (list X)) (x : X) :
  x ∈ concat ls ↔ ∃ l, l ∈ ls ∧ x ∈ l.
Proof.
  induction ls as [|l0 ls IH]; cbn.
  - split; [by intros ?%elem_of_nil|]. by intros (l & ?%elem_of_nil & _).
  - rewrite elem_of_app, IH. split.
    + intros [Hx|(l & Hl & Hx)]; [exists l0|exists l]; split; try done;
        [left|by right].
    + intros (l & [->|Hl]%elem_of_cons & Hx); [by left|right; eauto].
Qed.

Lemma elem_of_unique_labels ls l : l ∈ unique_labels ls ↔ l ∈ ls.
Proof. unfold unique_labels. rewrite elem_of_add_labels, elem_of_nil. tauto. Qed.

Lemma NoDup_unique_labels ls : NoDup (unique_labels ls).
Proof. apply NoDup_add_labels, NoDup_nil_2. Qed.

(** A dict built from its keys. *)
Lemma dict_get_tabulate {V} (f : string → V) (keys : list string) l :
  l ∈ keys → dict_get l ((λ k, (k, f k)) <$> keys) = Some (f l).
Proof.
  induction keys as [|k keys IH]; [by intros ?%elem_of_nil|].
  cbn. destruct (decide (k = l)) as [->|Hne]; [done|].
  rewrite elem_of_cons. intros [?|Hin]; [congruence|by apply IH].
Qed.

Lemma tabulate_keys {V} (f : string → V) (keys : list string) :
  ((λ k, (k, f k)) <$> keys).*1 = keys.
Proof. rewrite <- list_fmap_compose. apply list_fmap_id. Qed.

Lemma column_or_nan_length l df : df_wf df → length (column_or_nan l df) = nrows df.
Proof.
  intros Hwf. unfold column_or_nan.
  destruct (get_col l df) as [v|] eqn:Hv; cbn.
  - eauto using df_wf_column_length.
  - apply length_replicate.
Qed.

Lemma column_or_nan_lookup l df i :
  i < nrows df →
  column_or_nan l df !! i =
    if decide (l ∈ columns df) then cell_at df l i else Some NaN.
Proof.
  intros Hi. unfold column_or_nan, cell_at.
  destruct (decide (l ∈ columns df)) as [Hl|Hl].
  - apply dict_get_is_Some in Hl as [v Hv]. unfold get_col. by rewrite Hv.
  - apply dict_get_None in Hl. unfold get_col. rewrite Hl. cbn.
    by apply lookup_replicate_2.
Qed.

Lemma concat_columns_length l objs :
  Forall df_wf objs →
  length (concat (column_or_nan l <$> objs)) = sum_list (nrows <$> objs).
Proof.
  induction 1 as [|df objs Hwf _ IH]; [done|].
  cbn. by rewrite length_app, IH, column_or_nan_length.
Qed.

Lemma concat_columns_lookup l pre df post i :
  Forall df_wf (pre ++ df :: post) →
  i < nrows df →
  concat (column_or_nan l <$> (pre ++ df :: post)) !! (sum_list (nrows <$> pre) + i)
  = column_or_nan l df !! i.
Proof.
  intros [Hpre [Hdf Hpost]%Forall_cons]%Forall_app Hi.
  rewrite fmap_app, concat_app, fmap_cons, concat_cons.
  rewrite lookup_app_r by (rewrite concat_columns_length by done; lia).
  rewrite concat_columns_length by done.
  replace (sum_list (nrows <$> pre) + i - sum_list (nrows <$> pre)) with i by lia.
  apply lookup_app_l. by rewrite column_or_nan_length.
Qed.

Lemma pd_concat_eq df objs :
  pd_concat (df :: objs) =
    Ok (mkDataFrame
          (sum_list (nrows <$> df :: objs))
          ((λ l, (l, concat (column_or_nan l <$> df :: objs)))
             <$> unique_labels (concat (columns <$> df :: objs)))).
Proof. reflexivity. Qed.


Definition csv_people : DataFrame :=
  mkDataFrame 1 [("name", [CStr "Bob"]); ("height", [CStr "70"])].

Definition xml_people : DataFrame :=
  mkDataFrame 2
    [("name", [CStr "Ann"; CStr "Cy"]); ("weight", [CStr "120"; CNone])].



(** ** Claims on [get_extractor] *)

Lemma get_extractor_cases ft :
  get_extractor ft =
    if decide (ft = "csv") then Instance_of CSVExtractor
    else if decide (ft = "json") then Instance_of JSONExtractor
    else if decide (ft = "xml") then Instance_of XMLExtractor
    else Lambda_ValueError.
Proof.
  unfold get_extractor, extractors. cbn.
  repeat (destruct (decide (_ = ft)) as [<-|?]; [done|]).
  by rewrite !decide_False by congruence.
Qed.

(** C4, as amended. [get_extractor] returns the CSV, JSON or XML extractor
    exactly for the extensions [csv], [json] and [xml], written so; for
    every other string, ["CSV"] among them, it returns one and the same
    function, which builds [ValueError("Unsupported file type")] when it
    is called and knows nothing of the extension. It is a total function:
    it raises for no string. *)
Theorem get_extractor_resolves (ft : string) :
  (get_extractor ft = Instance_of CSVExtractor ↔ ft = "csv") ∧
  (get_extractor ft = Instance_of JSONExtractor ↔ ft = "json") ∧
  (get_extractor ft = Instance_of XMLExtractor ↔ ft = "xml") ∧
  (get_extractor ft = Lambda_ValueError ↔ ft ∉ ["csv"; "json"; "xml"]) ∧
  get_extractor "CSV" = Lambda_ValueError ∧
  call_lambda = Exn ValueError "Unsupported file type".
Proof.
  assert (ft ∉ ["csv"; "json"; "xml"] ↔ ft ≠ "csv" ∧ ft ≠ "json" ∧ ft ≠ "xml") as ->.
  { rewrite !not_elem_of_cons. pose proof (not_elem_of_nil ft). tauto. }
  rewrite get_extractor_cases.
  repeat (destruct (decide (ft = _)) as [->|?]);
    (split; [|split; [|split; [|split; [|split]]]]); try reflexivity;
    split; try done; try (intros [=]); intros (? & ? & ?); done.
Qed.

(** C4, as the claim states it, fails: what [get_extractor] returns for an
    unknown extension does not carry the extension. ["txt"] and ["pdf"]
    resolve to the same value, so no function reads the extension back. *)
Lemma get_extractor_forgets_extension :
  get_extractor "txt" = get_extractor "pdf" ∧
  ¬ ∃ carried : resolved → string,
      ∀ ft, ft ∉ ["csv"; "json"; "xml"] → carried (get_extractor ft) = ft.
Proof.
  split; [reflexivity|]. intros [carried Hcarried].
  assert ("txt" = "pdf") as Heq; [|discriminate Heq].
  rewrite <- (Hcarried "txt"), <- (Hcarried "pdf");
    [done|by apply (bool_decide_unpack _)..].
Qed.

(** ** Claims on the tasks and on [run] *)

Definition no_extract_attribute : string :=
  "'function' object has no attribute 'extract'".

Section Pipeline.
Variable str_to_float : string → option float.
Variable float_repr : float → string.
Variable open_read : string → result string.
Variable read_csv : string → result DataFrame.
Variable read_json : string → result DataFrame.
Variable ET_parse : string → result Element.
Variable glob : string → list string.
Variable makedirs : string → result unit.
Variable open_write : string → result unit.
Variable self : ETLProcess.

Local Abbreviation extract' := (extract open_read read_csv read_json ET_parse).
Local Abbreviation process_file' := (process_file open_read read_csv read_json ET_parse).
Local Abbreviation file_result' := (file_result open_read read_csv read_json ET_parse self).
Local Abbreviation file_log' := (file_log open_read read_csv read_json ET_parse self).
Local Abbreviation run' :=
  (run str_to_float float_repr open_read read_csv read_json ET_parse glob
       makedirs open_write).

Lemma tabulate_lookups {X Y} (f : X → Y) (d : X) (l : list X) :
  (λ i, f (default d (l !! i))) <$> seq 0 (length l) = f <$> l.
Proof.
  apply list_eq. intros i. rewrite !list_lookup_fmap.
  destruct (l !! i) as [x|] eqn:Hx; cbn.
  - rewrite lookup_seq_lt by eauto using lookup_lt_Some. cbn. by rewrite Hx.
  - by rewrite lookup_seq_ge by (by apply lookup_ge_None).
Qed.

Lemma gather_process_files files order w :
  ∃ L,
    gather order (process_file' self <$> files) w
    = (Ok (file_result' <$> files), append_lines L w) ∧
    (∀ file line, file ∈ files → line ∈ file_log' file → line ∈ L).
Proof.
  destruct (gather_returns
              (λ i, file_result' (default "" (files !! i)))
              (λ i, file_log' (default "" (files !! i)))
              order (process_file' self <$> files) w) as (L & Hrun & Hlog).
  { intros i t Ht w0. rewrite list_lookup_fmap in Ht. cbn [fst snd].
    destruct (files !! i) as [file|] eqn:Hfile; [|done].
    injection Ht as <-. cbn. apply process_file_returns. }
  exists L. rewrite Hrun, length_fmap, tabulate_lookups. split; [done|].
  intros file line [i Hi]%list_elem_of_lookup Hline.
  apply (Hlog i).
  - rewrite length_fmap. eauto using lookup_lt_Some.
  - by rewrite Hi.
Qed.

Lemma XMLExtractor_extract_eq path w :
  XMLExtractor_extract ET_parse path w =
    match ET_parse path with
    | Ok root =>
        (Ok (DataFrame_of_dicts (row_of_element <$> children root)),
         append_lines ["extract started. Context: Extracting XML data";
                       "extract completed. Context: Extracting XML data"] w)
    | Raise e =>
        (Raise e, append_lines ["extract started. Context: Extracting XML data"] w)
    end.
Proof.
  unfold XMLExtractor_extract. rewrite log_function_eq.
  unfold mbind, io_mbind, io_bind, lift.
  destruct (ET_parse path) as [root|e]; [|done].
  cbn. by rewrite append_lines_app.
Qed.

(** C9. A file whose extraction raises yields [pd.DataFrame()], a frame
    with no row and no column and with no mark of the failure: the task of
    an XML file whose root has no child returns the very same frame. *)
Theorem failed_file_returns_empty_frame
    (failed empty_xml : string) (w w' w1 : world) (e : exn)
    (root_tag : string) (root_text : option string) :
  extract' (get_extractor (file_type failed)) failed
    (append_lines [process_file_started] w) = (Raise e, w1) →
  file_type empty_xml = "xml" →
  ET_parse empty_xml = Ok (Elem root_tag root_text []) →
  (process_file' self failed w).1 = Ok DataFrame_empty ∧
  nrows DataFrame_empty = 0 ∧
  columns DataFrame_empty = [] ∧
  (process_file' self empty_xml w').1 = (process_file' self failed w).1.
Proof.
  intros Hraise Hxml Hroot.
  rewrite (process_file_eq _ _ _ _ _ failed), Hraise.
  split; [done|]. split; [done|]. split; [done|].
  rewrite process_file_eq, Hxml.
  change (get_extractor "xml") with (Instance_of XMLExtractor).
  cbn [extract]. by rewrite XMLExtractor_extract_eq, Hroot.
Qed.

Definition run_started : string := "run started. Context: ETL Process".

Definition unzipped : list string := glob "./unzipped_folder/*".

Lemma run_eq order w :
  run' self order w =
    log_function (Some "ETL Process") "run"
      (results ← gather order (process_file' self <$> unzipped);
       aggregated ← lift (pd_concat results);
       df ← new_frame aggregated;
       out ← transform_data str_to_float self df;
       load_data float_repr makedirs open_write self out) w.
Proof. reflexivity. Qed.

(** C3: what [run] does in an empty directory. [pd.concat] is given no
    frame and raises; nothing is written but the first line of the log. *)
Theorem run_empty_directory_raises (order : list nat) (w : world) :
  unzipped = [] →
  run' self order w =
    (Raise (Exn ValueError "No objects to concatenate"),
     append_lines [run_started] w) ∧
  fs (run' self order w).2 = fs w.
Proof.
  intros Hempty.
  assert (run' self order w =
            (Raise (Exn ValueError "No objects to concatenate"),
             append_lines [run_started] w)) as Hrun.
  { rewrite run_eq, log_function_eq, Hempty. reflexivity. }
  by rewrite Hrun.
Qed.

Lemma transform_data_missing df w d :
  frames w !! df = Some d →
  select d ["height"; "weight"] = None →
  transform_data str_to_float self df w =
    (Raise (key_error d ["height"; "weight"]),
     append_lines ["transform_data started. Context: Transforming data"] w).
Proof.
  intros Hdf Hsel. unfold transform_data. rewrite log_function_eq.
  unfold mbind, io_mbind, io_bind, get_frame, lift, getitem.
  cbn [frames append_lines]. by rewrite Hdf, Hsel.
Qed.

Lemma pd_concat_all_empty objs :
  objs ≠ [] →
  Forall (λ d, d = DataFrame_empty) objs →
  pd_concat objs = Ok DataFrame_empty.
Proof.
  intros Hne Hall.
  assert (sum_list (nrows <$> objs) = 0
          ∧ concat (columns <$> objs) = []) as [Hrows Hlabels].
  { clear Hne. induction Hall as [|d ds -> _ [IH1 IH2]]; [done|].
    cbn. by rewrite IH1, IH2. }
  destruct objs as [|df objs]; [done|].
  by rewrite pd_concat_eq, Hrows, Hlabels.
Qed.

(** C2: what [run] does when every task fails. [pd.concat] returns the
    frame with no row and no column; [transform_data] selects [height]
    and [weight] from it and raises [KeyError]; [load_data] is not
    reached and no file is written. *)
Theorem run_all_tasks_failed_raises (order : list nat) (w : world) :
  unzipped ≠ [] →
  (∀ file, file ∈ unzipped → ∃ e w1,
     extract' (get_extractor (file_type file)) file
       (append_lines [process_file_started] blank) = (Raise e, w1)) →
  pd_concat (file_result' <$> unzipped) = Ok DataFrame_empty ∧
  ∃ w',
    run' self order w =
      (Raise (Exn KeyError
                "None of [Index(['height', 'weight'], dtype='object')] are in the [columns]"),
       w') ∧
    fs w' = fs w.
Proof.
  intros Hne Hfail.
  assert (pd_concat (file_result' <$> unzipped) = Ok DataFrame_empty) as Hagg.
  { apply pd_concat_all_empty.
    - by destruct unzipped.
    - apply Forall_fmap, Forall_forall. intros file Hfile. cbn.
      destruct (Hfail file Hfile) as (e & w1 & Hraise).
      unfold file_result. by rewrite process_file_eq, Hraise. }
  split; [done|].
  rewrite run_eq, log_function_eq.
  destruct (gather_process_files unzipped order (append_lines [run_started] w))
    as (L & Hrun & _).
  unfold mbind at 1, io_mbind at 1, io_bind at 1.
  change ("run" +:+ " started. " +:+ context_info (Some "ETL Process"))
    with run_started.
  rewrite Hrun.
  unfold mbind at 1, io_mbind at 1, io_bind at 1, lift at 1. rewrite Hagg.
  unfold mbind at 1, io_mbind at 1, io_bind at 1, new_frame at 1.
  unfold mbind at 1, io_mbind at 1, io_bind at 1.
  erewrite transform_data_missing; [|by apply list_lookup_middle|done].
  eexists. split; [reflexivity|done].
Qed.
Lemma load_data_eq out w d :
  frames w !! out = Some d →
  makedirs (output_file self) = Ok () →
  open_write (output_file self) = Ok () →
  load_data float_repr makedirs open_write self out w =
    (Ok (),
     mkWorld
       (log_file w ++ ["load_data started. Context: Loading data";
                       "load_data completed. Context: Loading data"])
       (frames w)
       (<[output_file self := to_csv float_repr d]> (fs w))).
Proof.
  intros Hout Hdirs Hopen. unfold load_data. rewrite log_function_eq.
  unfold mbind, io_mbind, io_bind, write_csv, lift, get_frame.
  rewrite Hdirs. cbn [frames append_lines]. rewrite Hout.
  unfold mbind, io_mbind, io_bind, lift, put_file. rewrite Hopen.
  unfold append_lines. cbn. by rewrite <- app_assoc.
Qed.

(** X1. When the frames extracted have the columns [name], [height] and
    [weight] between them and the output file can be written, [run]
    completes: the output file holds the header [name,height,weight] and
    the rows of the frame [transform_data] returns, and it replaces
    whatever the file held. *)
Theorem run_writes_output (order : list nat) (w : world) agg ns hs ws :
  pd_concat (file_result' <$> unzipped) = Ok agg →
  get_col "name" agg = Some ns →
  get_col "height" agg = Some hs →
  get_col "weight" agg = Some ws →
  makedirs (output_file self) = Ok () →
  open_write (output_file self) = Ok () →
  ∃ w',
    run' self order w = (Ok (), w') ∧
    fs w' = <[output_file self :=
                to_csv float_repr (returned str_to_float agg ns hs ws)]> (fs w) ∧
    head (to_csv float_repr (returned str_to_float agg ns hs ws))
    = Some ["name"; "height"; "weight"] ∧
    length (to_csv float_repr (returned str_to_float agg ns hs ws))
    = S (nrows agg).
Proof.
  intros Hagg Hn Hh Hw Hdirs Hopen.
  rewrite run_eq, log_function_eq.
  destruct (gather_process_files unzipped order
              (append_lines ["run" +:+ " started. " +:+ context_info (Some "ETL Process")] w))
    as (L & Hrun & _).
  unfold mbind at 1, io_mbind at 1, io_bind at 1. rewrite Hrun.
  unfold mbind at 1, io_mbind at 1, io_bind at 1, lift at 1. rewrite Hagg.
  unfold mbind at 1, io_mbind at 1, io_bind at 1, new_frame at 1.
  unfold mbind at 1, io_mbind at 1, io_bind at 1.
  erewrite transform_data_eq; [|by apply list_lookup_middle|done..].
  erewrite load_data_eq; [|apply returned_lookup|done..].
  eexists. split; [reflexivity|]. split; [done|]. split; [done|].
  unfold to_csv. cbn. by rewrite length_fmap, length_seq.
Qed.
End Pipeline.

(** ** The claims on concrete directories *)

(** A file system on which no file can be opened, readers that find
    nothing to parse, and an XML parser that returns a root with no child. *)
Definition no_file (path : string) : result string :=
  Raise (Exn FileNotFoundError
           ("[Errno 2] No such file or directory: '" +:+ path +:+ "'")).

Definition no_columns (content : string) : result DataFrame :=
  Raise (Exn ValueError "No columns to parse from file").

Definition empty_root (path : string) : result Element :=
  Ok (Elem "people" None []).

Definition plain_repr (x : float) : string := "1.778".

Definition always_ok (path : string) : result unit := Ok ().

Definition empty_directory (pattern : string) : list string := [].

Definition two_bad_files (pattern : string) : list string :=
  ["./unzipped_folder/notes.txt"; "./unzipped_folder/people.csv"].

Lemma run_empty_directory_raises_witness :
  run parse_seventy plain_repr no_file no_columns no_columns empty_root
      empty_directory always_ok always_ok etl [] blank
  = (Raise (Exn ValueError "No objects to concatenate"),
     append_lines [run_started] blank) ∧
  fs (run parse_seventy plain_repr no_file no_columns no_columns empty_root
          empty_directory always_ok always_ok etl [] blank).2 = fs blank.
Proof.
  apply (run_empty_directory_raises parse_seventy plain_repr no_file no_columns
           no_columns empty_root empty_directory always_ok always_ok etl [] blank).
  reflexivity.
Defined.

Lemma run_all_tasks_failed_raises_witness :
  pd_concat
    (file_result no_file no_columns no_columns empty_root etl
       <$> unzipped two_bad_files) = Ok DataFrame_empty ∧
  ∃ w',
    run parse_seventy plain_repr no_file no_columns no_columns empty_root
        two_bad_files always_ok always_ok etl [1; 0] blank
    = (Raise (Exn KeyError
                "None of [Index(['height', 'weight'], dtype='object')] are in the [columns]"),
       w') ∧
    fs w' = fs blank.
Proof.
  apply (run_all_tasks_failed_raises parse_seventy plain_repr no_file no_columns
           no_columns empty_root two_bad_files always_ok always_ok etl [1; 0] blank).
  - discriminate.
  - intros file Hfile. unfold unzipped, two_bad_files in Hfile.
    apply elem_of_cons in Hfile as [->|Hfile];
      [|apply list_elem_of_singleton in Hfile as ->];
      eexists _, _; reflexivity.
Defined.

Lemma failed_file_returns_empty_frame_witness :
  (process_file no_file no_columns no_columns empty_root etl
     "./unzipped_folder/notes.txt" blank).1 = Ok DataFrame_empty ∧
  nrows DataFrame_empty = 0 ∧
  columns DataFrame_empty = [] ∧
  (process_file no_file no_columns no_columns empty_root etl
     "./unzipped_folder/nobody.xml" blank).1
  = (process_file no_file no_columns no_columns empty_root etl
       "./unzipped_folder/notes.txt" blank).1.
Proof.
  apply (failed_file_returns_empty_frame no_file no_columns no_columns empty_root
           etl "./unzipped_folder/notes.txt" "./unzipped_folder/nobody.xml"
           blank blank (append_lines [process_file_started] blank)
           (Exn AttributeError no_extract_attribute) "people" None);
    reflexivity.
Defined.

(** A directory with one CSV file that reads as [bob_frame] and one file
    of an extension that is not supported. *)
Definition people_csv_text (path : string) : result string :=
  Ok "name,age,height,weight".

Definition reads_bob (content : string) : result DataFrame := Ok bob_frame.

Definition one_good_file (pattern : string) : list string :=
  ["./unzipped_folder/people.csv"; "./unzipped_folder/notes.txt"].

Lemma run_writes_output_witness :
  ∃ w',
    run parse_seventy plain_repr people_csv_text reads_bob no_columns empty_root
        one_good_file always_ok always_ok etl [1] blank = (Ok (), w') ∧
    fs w' = <[output_file etl :=
                to_csv plain_repr
                  (returned parse_seventy bob_frame
                     [CStr "Bob"] [CStr "70"] [CStr "heavy"])]> (fs blank) ∧
    head (to_csv plain_repr
            (returned parse_seventy bob_frame
               [CStr "Bob"] [CStr "70"] [CStr "heavy"]))
    = Some ["name"; "height"; "weight"] ∧
    length (to_csv plain_repr
              (returned parse_seventy bob_frame
                 [CStr "Bob"] [CStr "70"] [CStr "heavy"]))
    = S (nrows bob_frame).
Proof.
  apply (run_writes_output parse_seventy plain_repr people_csv_text reads_bob
           no_columns empty_root one_good_file always_ok always_ok etl [1] blank
           bob_frame [CStr "Bob"] [CStr "70"] [CStr "heavy"]);
    reflexivity.
Defined.

(** * Further properties of the program *)

(** ** The extension of a file: [file.split('.')[-1]] *)

(** [c in s] *)
Fixpoint occurs (c : Ascii.ascii) (s : string) : bool :=
  match s with
  | EmptyString => false
  | String c' s' => if decide (c' = c) then true else occurs c s'
  end.

Lemma occurs_app c s t : occurs c (s +:+ t) = occurs c s || occurs c t.
Proof.
  induction s as [|c' s IH]; [done|]. simpl.
  destruct (decide (c' = c)); [done|exact IH].
Qed.

Lemma split_without_sep sep s : occurs sep s = false → split sep s = [s].
Proof.
  induction s as [|c s IH]; [done|]. cbn.
  destruct (decide (c = sep)); [done|]. intros Hs. by rewrite IH.
Qed.

Lemma split_pieces_without_sep sep s :
  Forall (λ piece, occurs sep piece = false) (split sep s).
Proof.
  induction s as [|c s IH]; cbn.
  - by apply Forall_cons.
  - destruct (decide (c = sep)) as [->|Hne]; [by apply Forall_cons|].
    destruct (split sep s) as [|piece pieces]; cbn.
    + apply Forall_cons. split; [|done]. cbn. by rewrite decide_False.
    + apply Forall_cons in IH as [Hpiece Hpieces].
      apply Forall_cons. split; [|done]. cbn. by rewrite decide_False.
Qed.

Lemma split_at_sep sep stem ext :
  occurs sep ext = false →
  ∃ piece pieces,
    split sep (stem +:+ String sep ext) = piece :: pieces ∧
    pieces ≠ [] ∧ List.last pieces EmptyString = ext.
Proof.
  intros Hext. induction stem as [|c stem (piece & pieces & IH & Hne & Hlast)]; simpl.
  - rewrite decide_True by done. rewrite split_without_sep by done.
    by exists EmptyString, [ext].
  - rewrite IH. destruct (decide (c = sep)).
    + exists EmptyString, (piece :: pieces). split; [done|]. split; [done|].
      by destruct pieces.
    + by exists (String c piece), pieces.
Qed.

(** X2. The extension [process_file] resolves is what follows the last
    dot of the path: for a path [stem.ext] where [ext] holds no dot it is
    [ext], whatever [stem] holds. *)
Theorem file_type_after_last_dot (stem ext : string) :
  occurs "." ext = false →
  file_type (stem +:+ String "." ext) = ext.
Proof.
  intros Hext. unfold file_type.
  destruct (split_at_sep "." stem ext Hext) as (piece & pieces & -> & Hne & Hlast).
  by destruct pieces.
Qed.

Lemma file_type_after_last_dot_witness :
  file_type ("./unzipped_folder/archive.tar" +:+ String "." "csv") = "csv".
Proof. apply file_type_after_last_dot. reflexivity. Defined.

(** X3. The extension resolved never holds a dot, and a path with no dot
    at all is its own extension. *)
Theorem file_type_has_no_dot (file : string) :
  occurs "." (file_type file) = false ∧
  (occurs "." file = false → file_type file = file).
Proof.
  split.
  - unfold file_type. pose proof (split_pieces_without_sep "." file) as Hall.
    induction (split "."%char file) as [|piece pieces IH]; [done|].
    apply Forall_cons in Hall as [Hpiece Hpieces].
    destruct pieces; [done|]. by apply IH.
  - intros Hfile. unfold file_type. by rewrite split_without_sep.
Qed.

(** X4. A file of the input directory whose name holds no dot is never
    extracted: [glob] returns its path with the prefix [./unzipped_folder/],
    so the extension resolved is [/unzipped_folder/] followed by the name,
    which is none of [csv], [json], [xml], even for a file named [csv]. *)
Theorem extensionless_file_is_unsupported (name : string) :
  occurs "." name = false →
  file_type ("./unzipped_folder/" +:+ name) = "/unzipped_folder/" +:+ name ∧
  get_extractor (file_type ("./unzipped_folder/" +:+ name)) = Lambda_ValueError.
Proof.
  intros Hname.
  assert (file_type ("./unzipped_folder/" +:+ name) = "/unzipped_folder/" +:+ name)
    as Htype.
  { apply (file_type_after_last_dot "" ("/unzipped_folder/" +:+ name)).
    by rewrite occurs_app, Hname. }
  split; [done|]. rewrite Htype, get_extractor_cases.
  by rewrite !decide_False by done.
Qed.

Lemma extensionless_file_is_unsupported_witness :
  file_type ("./unzipped_folder/" +:+ "csv") = "/unzipped_folder/" +:+ "csv" ∧
  get_extractor (file_type ("./unzipped_folder/" +:+ "csv")) = Lambda_ValueError.
Proof. apply extensionless_file_is_unsupported. reflexivity. Defined.

(** ** XML documents into frames *)

Lemma row_of_children_lookup (l : string) (cs : list Element) :
  ∀ d : list (string * cell),
    dict_get l (foldl (λ d child, dict_set (tag child) (text_cell child) d) d cs)
    = match last (filter (λ c, tag c = l) cs) with
      | Some c => Some (text_cell c)
      | None => dict_get l d
      end.
Proof.
  induction cs as [|c cs IH]; intros d; [done|].
  cbn [foldl]. rewrite IH. rewrite filter_cons.
  destruct (decide (tag c = l)) as [<-|Hne].
  - rewrite last_cons, dict_get_set_eq. by destruct (last _).
  - by rewrite dict_get_set_ne.
Qed.

Lemma row_of_element_lookup (l : string) (elem : Element) :
  dict_get l (row_of_element elem)
  = text_cell <$> last (filter (λ c, tag c = l) (children elem)).
Proof.
  unfold row_of_element. rewrite row_of_children_lookup. by destruct (last _).
Qed.

Lemma row_of_element_keys (l : string) (elem : Element) :
  l ∈ (row_of_element elem).*1 ↔ ∃ child, child ∈ children elem ∧ tag child = l.
Proof.
  rewrite <- dict_get_is_Some, row_of_element_lookup, fmap_is_Some. split.
  - intros [c Hc]. exists c. apply last_Some_elem_of, list_elem_of_filter in Hc.
    tauto.
  - intros (child & Hin & Htag).
    assert (child ∈ filter (λ c, tag c = l) (children elem)) as Hfil.
    { by apply list_elem_of_filter. }
    destruct (filter _ _) as [|x xs] eqn:Hf; [by apply elem_of_nil in Hfil|].
    rewrite last_cons. destruct (last xs); eauto.
Qed.

Lemma DataFrame_of_dicts_columns rows :
  columns (DataFrame_of_dicts rows) = unique_labels (concat ((λ r, r.*1) <$> rows)).
Proof. unfold columns, DataFrame_of_dicts. cbn [data]. apply tabulate_keys. Qed.

Lemma infer_column_length col : length (infer_column col) = length col.
Proof.
  unfold infer_column. destruct (existsb is_str col); [done|].
  destruct (existsb is_num col); [apply length_fmap|done].
Qed.

Lemma existsb_lookup (p : cell → bool) col i c :
  col !! i = Some c → p c = true → existsb p col = true.
Proof.
  intros Hc Hp. apply existsb_exists. exists c. split; [|done].
  apply list_elem_of_In. by eapply list_elem_of_lookup_2.
Qed.

Lemma infer_column_str col i s :
  col !! i = Some (CStr s) → infer_column col !! i = Some (CStr s).
Proof.
  intros Hc. unfold infer_column.
  by rewrite (existsb_lookup is_str col i (CStr s)).
Qed.

Lemma infer_column_num col i x :
  col !! i = Some (CNum x) → infer_column col !! i = Some (CNum x).
Proof.
  intros Hc. unfold infer_column. destruct (existsb is_str col); [done|].
  rewrite (existsb_lookup is_num col i (CNum x)) by done.
  by rewrite list_lookup_fmap, Hc.
Qed.

Lemma infer_column_none col i :
  col !! i = Some CNone →
  infer_column col !! i
  = Some (if existsb is_str col then CNone
          else if existsb is_num col then NaN else CNone).
Proof.
  intros Hc. unfold infer_column. destruct (existsb is_str col); [done|].
  destruct (existsb is_num col); [|done]. by rewrite list_lookup_fmap, Hc.
Qed.

Lemma DataFrame_of_dicts_wf rows : df_wf (DataFrame_of_dicts rows).
Proof.
  split.
  - rewrite DataFrame_of_dicts_columns. apply NoDup_unique_labels.
  - unfold DataFrame_of_dicts. cbn [data nrows].
    apply Forall_fmap, Forall_forall. intros l _. cbn.
    by rewrite infer_column_length, length_fmap.
Qed.

Lemma DataFrame_of_dicts_cell rows l i :
  l ∈ columns (DataFrame_of_dicts rows) →
  cell_at (DataFrame_of_dicts rows) l i
  = infer_column ((λ r, default NaN (dict_get l r)) <$> rows) !! i.
Proof.
  rewrite DataFrame_of_dicts_columns. intros Hl.
  unfold cell_at, get_col, DataFrame_of_dicts. cbn [data].
  by rewrite (dict_get_tabulate
                (λ l, infer_column
                        ((λ r : list (string * cell), default NaN (dict_get l r))
                           <$> rows))).
Qed.

(** The child of [elem] whose text the row of [elem] holds under [label]:
    the last one with this tag. *)
Definition winner (label : string) (elem : Element) : option Element :=
  last (filter (λ c, tag c = label) (children elem)).

(** The cell of [elem] under [label] before pandas infers the type of the
    column. *)
Definition raw_cell (label : string) (elem : Element) : cell :=
  default NaN (dict_get label (row_of_element elem)).

Lemma raw_cell_eq label elem :
  raw_cell label elem
  = match winner label elem with
    | Some child => text_cell child
    | None => NaN
    end.
Proof.
  unfold raw_cell, winner. rewrite row_of_element_lookup. by destruct (last _).
Qed.

Lemma raw_column_is_str label elems :
  existsb is_str (raw_cell label <$> elems) = true ↔
  ∃ elem child s,
    elem ∈ elems ∧ winner label elem = Some child ∧ text child = Some s.
Proof.
  rewrite existsb_exists. split.
  - intros (c & Hc & Hstr). apply list_elem_of_In, list_elem_of_fmap in Hc.
    destruct Hc as (elem & -> & Helem). rewrite raw_cell_eq in Hstr.
    destruct (winner label elem) as [child|] eqn:Hw; [|done].
    unfold text_cell in Hstr. destruct (text child) as [s|] eqn:Ht; [|done].
    eauto 6.
  - intros (elem & child & s & Helem & Hw & Ht). exists (CStr s). split; [|done].
    apply list_elem_of_In, list_elem_of_fmap. exists elem. split; [|done].
    rewrite raw_cell_eq, Hw. unfold text_cell. by rewrite Ht.
Qed.

Lemma raw_column_is_num label elems :
  existsb is_num (raw_cell label <$> elems) = true ↔
  ∃ elem, elem ∈ elems ∧ winner label elem = None.
Proof.
  rewrite existsb_exists. split.
  - intros (c & Hc & Hnum). apply list_elem_of_In, list_elem_of_fmap in Hc.
    destruct Hc as (elem & -> & Helem). rewrite raw_cell_eq in Hnum.
    destruct (winner label elem) as [child|] eqn:Hw; [|by eauto].
    unfold text_cell in Hnum. by destruct (text child).
  - intros (elem & Helem & Hw). exists NaN. split; [|done].
    apply list_elem_of_In, list_elem_of_fmap. exists elem. split; [|done].
    by rewrite raw_cell_eq, Hw.
Qed.

Section XmlFacts.
Variable ET_parse : string → result Element.

(** X5. An XML file that parses always extracts: the frame is well formed,
    with one row per child of the root, in document order, and one column
    per tag met among the grandchildren. Under a tag, the row of an
    element holds the text of its last child with that tag. When the
    element has no such child the cell is [NaN]. When that child has no
    text the cell is null: it is [None] as long as some row of the column
    holds a text or every row has such a child, and it is [NaN] in a
    column with no text in which some element lacks the tag (pandas makes
    that column float64). *)
Theorem XMLExtractor_extract_shape (path : string) (root : Element) (w : world) :
  ET_parse path = Ok root →
  ∃ df w',
    XMLExtractor_extract ET_parse path w = (Ok df, w') ∧
    nrows df = length (children root) ∧
    df_wf df ∧
    (∀ l, l ∈ columns df ↔
          ∃ elem child,
            elem ∈ children root ∧ child ∈ children elem ∧ tag child = l) ∧
    (∀ i elem l,
       children root !! i = Some elem → l ∈ columns df →
       ∃ c,
         cell_at df l i = Some c ∧
         (∀ child s,
            winner l elem = Some child → text child = Some s → c = CStr s) ∧
         (winner l elem = None → c = NaN) ∧
         (∀ child,
            winner l elem = Some child → text child = None →
            isna c = true ∧
            ((∃ elem' child' s,
                elem' ∈ children root ∧ winner l elem' = Some child' ∧
                text child' = Some s) → c = CNone) ∧
            ((∀ elem', elem' ∈ children root → winner l elem' ≠ None) →
             c = CNone) ∧
            ((∀ elem' child',
                elem' ∈ children root → winner l elem' = Some child' →
                text child' = None) →
             (∃ elem', elem' ∈ children root ∧ winner l elem' = None) →
             c = NaN))).
Proof.
  intros Hroot. eexists _, _. split.
  { rewrite XMLExtractor_extract_eq, Hroot. reflexivity. }
  split; [apply length_fmap|]. split; [apply DataFrame_of_dicts_wf|]. split.
  - intros l. rewrite DataFrame_of_dicts_columns, elem_of_unique_labels.
    rewrite elem_of_concat. split.
    + intros (ks & Hks & Hl).
      apply list_elem_of_fmap in Hks as (row & -> & Hrow).
      apply list_elem_of_fmap in Hrow as (elem & -> & Helem).
      apply row_of_element_keys in Hl as (child & Hchild & Htag). eauto.
    + intros (elem & child & Helem & Hchild & Htag).
      exists ((row_of_element elem).*1). split.
      * apply list_elem_of_fmap. exists (row_of_element elem). split; [done|].
        apply list_elem_of_fmap. eauto.
      * apply row_of_element_keys. eauto.
  - intros i elem l Helem Hl.
    rewrite (DataFrame_of_dicts_cell _ l i) by done.
    rewrite <- list_fmap_compose.
    change ((λ r, default NaN (dict_get l r)) ∘ row_of_element)
      with (raw_cell l).
    set (col := raw_cell l <$> children root).
    assert (col !! i = Some (raw_cell l elem)) as Hraw.
    { unfold col. by rewrite list_lookup_fmap, Helem. }
    rewrite raw_cell_eq in Hraw.
    destruct (winner l elem) as [child|] eqn:Hw.
    + unfold text_cell in Hraw. destruct (text child) as [s|] eqn:Ht.
      * exists (CStr s). split; [by apply infer_column_str|].
        split; [intros ? ? [= <-] ?; congruence|]. split; [done|].
        intros ? [= <-] ?. congruence.
      * eexists. split; [by apply infer_column_none|].
        split; [intros ? ? [= <-] ?; congruence|]. split; [done|].
        intros ? _ _. split; [by repeat destruct (existsb _ _)|].
        split; [|split].
        -- intros Htext. apply raw_column_is_str in Htext.
           fold col in Htext. by rewrite Htext.
        -- intros Hall. destruct (existsb is_str col); [done|].
           destruct (existsb is_num col) eqn:Hnum; [|done].
           apply raw_column_is_num in Hnum as (elem' & Helem' & Hw').
           by destruct (Hall elem' Helem').
        -- intros Hnotext Hlacks.
           destruct (existsb is_str col) eqn:Hstr.
           { apply raw_column_is_str in Hstr
               as (elem' & child' & s & Helem' & Hw' & Ht').
             rewrite (Hnotext elem' child' Helem' Hw') in Ht'. done. }
           apply raw_column_is_num in Hlacks. fold col in Hlacks.
           by rewrite Hlacks.
    + exists NaN. split; [by apply infer_column_num|].
      split; [done|]. split; [done|]. done.
Qed.
End XmlFacts.

(** A document of two people: the first has two [name] children, the
    second has no child at all. *)
Definition two_people : Element :=
  Elem "people" None
    [Elem "person" None
       [Elem "name" (Some "Ann") []; Elem "height" None [];
        Elem "name" (Some "Anna") []];
     Elem "person" None []].

Definition parses_two_people (path : string) : result Element := Ok two_people.

Lemma XMLExtractor_extract_shape_witness :
  ∃ df w',
    XMLExtractor_extract parses_two_people "./unzipped_folder/p.xml" blank
    = (Ok df, w') ∧
    nrows df = length (children two_people) ∧
    df_wf df ∧
    (∀ l, l ∈ columns df ↔
          ∃ elem child,
            elem ∈ children two_people ∧ child ∈ children elem ∧ tag child = l) ∧
    (∀ i elem l,
       children two_people !! i = Some elem → l ∈ columns df →
       ∃ c,
         cell_at df l i = Some c ∧
         (∀ child s,
            winner l elem = Some child → text child = Some s → c = CStr s) ∧
         (winner l elem = None → c = NaN) ∧
         (∀ child,
            winner l elem = Some child → text child = None →
            isna c = true ∧
            ((∃ elem' child' s,
                elem' ∈ children two_people ∧ winner l elem' = Some child' ∧
                text child' = Some s) → c = CNone) ∧
            ((∀ elem', elem' ∈ children two_people → winner l elem' ≠ None) →
             c = CNone) ∧
            ((∀ elem' child',
                elem' ∈ children two_people → winner l elem' = Some child' →
                text child' = None) →
             (∃ elem', elem' ∈ children two_people ∧ winner l elem' = None) →
             c = NaN))).
Proof.
  apply (XMLExtractor_extract_shape parses_two_people "./unzipped_folder/p.xml"
           two_people blank).
  reflexivity.
Defined.

(** The frame of [two_people], cell by cell: the second [name] of Ann
    wins, her [height] with no text is [NaN] because the column holds no
    text and the second person has no [height], and the person with no
    child is a row of [NaN]. *)
Example two_people_frame :
  DataFrame_of_dicts (row_of_element <$> children two_people)
  = mkDataFrame 2 [("name", [CStr "Anna"; NaN]); ("height", [NaN; NaN])].
Proof. reflexivity. Qed.

(** ** What a task does for each kind of file *)

Definition csv_started : string := "extract started. Context: Extracting CSV data".
Definition csv_completed : string := "extract completed. Context: Extracting CSV data".
Definition json_started : string := "extract started. Context: Extracting JSON data".
Definition json_completed : string := "extract completed. Context: Extracting JSON data".
Definition xml_started : string := "extract started. Context: Extracting XML data".
Definition xml_completed : string := "extract completed. Context: Extracting XML data".

(** What a task returns and appends to the log when the decorated
    [extract] of its file, which writes [started] first and [completed]
    last, ends with [outcome]. *)
Definition task_outcome (file started completed : string)
  (outcome : result DataFrame) (w : world) : result DataFrame * world :=
  match outcome with
  | Ok df =>
      (Ok df,
       append_lines
         [process_file_started; started; completed; process_file_completed] w)
  | Raise e =>
      (Ok DataFrame_empty,
       append_lines
         [process_file_started; started; failure_line file e;
          process_file_completed] w)
  end.

(** The outcome of reading a file as text and parsing the text. *)
Definition read_then (open_read : string → result string)
  (reader : string → result DataFrame) (path : string) : result DataFrame :=
  match open_read path with
  | Ok content => reader content
  | Raise e => Raise e
  end.

Section Dispatch.
Variable open_read : string → result string.
Variable read_csv : string → result DataFrame.
Variable read_json : string → result DataFrame.
Variable ET_parse : string → result Element.
Variable self : ETLProcess.

Local Abbreviation process_file' := (process_file open_read read_csv read_json ET_parse).

Lemma CSVExtractor_extract_eq path w :
  CSVExtractor_extract open_read read_csv path w =
    match read_then open_read read_csv path with
    | Ok df => (Ok df, append_lines [csv_started; csv_completed] w)
    | Raise e => (Raise e, append_lines [csv_started] w)
    end.
Proof.
  unfold CSVExtractor_extract, read_then. rewrite log_function_eq.
  unfold mbind, io_mbind, io_bind, lift.
  destruct (open_read path) as [content|e]; [|done].
  destruct (read_csv content) as [df|e]; [|done].
  cbn. by rewrite append_lines_app.
Qed.

Lemma JSONExtractor_extract_eq path w :
  JSONExtractor_extract open_read read_json path w =
    match read_then open_read read_json path with
    | Ok df => (Ok df, append_lines [json_started; json_completed] w)
    | Raise e => (Raise e, append_lines [json_started] w)
    end.
Proof.
  unfold JSONExtractor_extract, read_then. rewrite log_function_eq.
  unfold mbind, io_mbind, io_bind, lift.
  destruct (open_read path) as [content|e]; [|done].
  destruct (read_json content) as [df|e]; [|done].
  cbn. by rewrite append_lines_app.
Qed.

(** X6. The task of a path that ends in [.csv] opens the file and hands
    its text to [pd.read_csv]: it returns the frame read; when the file
    cannot be opened or its text cannot be parsed it returns
    [pd.DataFrame()] and logs the failure. [read_json] and the XML parser
    are not consulted. The log receives the start line of [extract] in
    both cases and its completion line only in the first; the completion
    line of [process_file] is written in both. *)
Theorem process_file_csv (stem : string) (w : world) :
  let file := stem +:+ ".csv" in
  process_file' self file w =
    task_outcome file csv_started csv_completed
      (read_then open_read read_csv file) w.
Proof.
  cbv zeta. rewrite process_file_eq.
  rewrite (file_type_after_last_dot stem "csv") by done.
  change (get_extractor "csv") with (Instance_of CSVExtractor).
  cbn [extract]. rewrite CSVExtractor_extract_eq. unfold task_outcome.
  destruct (read_then _ _ _) as [df|e]; by rewrite !append_lines_app.
Qed.

(** X7. The task of a path that ends in [.json] opens the file and hands
    its text to [pd.read_json(..., lines=True)], with the same treatment
    of success and failure as for CSV. *)
Theorem process_file_json (stem : string) (w : world) :
  let file := stem +:+ ".json" in
  process_file' self file w =
    task_outcome file json_started json_completed
      (read_then open_read read_json file) w.
Proof.
  cbv zeta. rewrite process_file_eq.
  rewrite (file_type_after_last_dot stem "json") by done.
  change (get_extractor "json") with (Instance_of JSONExtractor).
  cbn [extract]. rewrite JSONExtractor_extract_eq. unfold task_outcome.
  destruct (read_then _ _ _) as [df|e]; by rewrite !append_lines_app.
Qed.

(** X8. The task of a path that ends in [.xml] parses the file itself,
    without [open_read]: it returns the frame built from the children of
    the root, or [pd.DataFrame()] with the failure logged when the parser
    raises. *)
Theorem process_file_xml (stem : string) (w : world) :
  let file := stem +:+ ".xml" in
  process_file' self file w =
    task_outcome file xml_started xml_completed
      (match ET_parse file with
       | Ok root => Ok (DataFrame_of_dicts (row_of_element <$> children root))
       | Raise e => Raise e
       end) w.
Proof.
  cbv zeta. rewrite process_file_eq.
  rewrite (file_type_after_last_dot stem "xml") by done.
  change (get_extractor "xml") with (Instance_of XMLExtractor).
  cbn [extract]. rewrite XMLExtractor_extract_eq. unfold task_outcome.
  destruct (ET_parse _) as [root|e]; by rewrite !append_lines_app.
Qed.

(** X9. Whatever its file, a task changes nothing but the log: the frames
    of the store and the files written are as before. Its lines start with
    the start line of [process_file] and end with its completion line,
    which is therefore written for a file that failed too. *)
Theorem process_file_only_logs (file : string) (w : world) :
  ∃ middle,
    (process_file' self file w).2
    = append_lines
        (process_file_started :: middle ++ [process_file_completed]) w ∧
    frames (process_file' self file w).2 = frames w ∧
    fs (process_file' self file w).2 = fs w.
Proof.
  rewrite process_file_eq.
  rewrite (log_only_extract open_read read_csv read_json ET_parse _ file
             (append_lines [process_file_started] w)).
  destruct (extract _ _ _ _ _ file blank) as [[df|e] wb]; cbn [fst snd].
  - exists (log_file wb). rewrite !append_lines_app. done.
  - exists (log_file wb ++ [failure_line file e]).
    rewrite !append_lines_app, <- !app_assoc. done.
Qed.
End Dispatch.

(** ** Frames of failed files in the aggregation *)

(** The frame has no row and no column: it is [pd.DataFrame()]. *)
Definition df_is_empty (df : DataFrame) : bool :=
  match nrows df, data df with
  | 0, [] => true
  | _, _ => false
  end.

Definition keeps_frame (df : DataFrame) : Prop := df_is_empty df = false.

#[export] Instance keeps_frame_dec df : Decision (keeps_frame df).
Proof. unfold keeps_frame. apply _. Defined.

Lemma df_is_empty_true df : df_is_empty df = true → df = DataFrame_empty.
Proof. destruct df as [[|n] [|c cs]]; by intros [=]. Qed.

Lemma filter_keeps_rows objs :
  sum_list (nrows <$> filter keeps_frame objs) = sum_list (nrows <$> objs).
Proof.
  induction objs as [|df objs IH]; [done|]. rewrite filter_cons.
  destruct (decide (keeps_frame df)) as [Hk|Hk]; cbn; [by rewrite IH|].
  apply not_false_is_true, df_is_empty_true in Hk as ->. by rewrite IH.
Qed.

Lemma filter_keeps_labels objs :
  concat (columns <$> filter keeps_frame objs) = concat (columns <$> objs).
Proof.
  induction objs as [|df objs IH]; [done|]. rewrite filter_cons.
  destruct (decide (keeps_frame df)) as [Hk|Hk]; cbn; [by rewrite IH|].
  apply not_false_is_true, df_is_empty_true in Hk as ->. by rewrite IH.
Qed.

Lemma filter_keeps_cells l objs :
  concat (column_or_nan l <$> filter keeps_frame objs)
  = concat (column_or_nan l <$> objs).
Proof.
  induction objs as [|df objs IH]; [done|]. rewrite filter_cons.
  destruct (decide (keeps_frame df)) as [Hk|Hk]; cbn; [by rewrite IH|].
  apply not_false_is_true, df_is_empty_true in Hk as ->. by rewrite IH.
Qed.

(** X10. The frames [pd.DataFrame()] that failed files leave among the
    results add nothing to the aggregation: as long as one frame with a
    row or a column is left, [pd.concat] returns what it returns for the
    results without them, in the same order. *)
Theorem pd_concat_ignores_empty_frames (objs : list DataFrame) :
  filter keeps_frame objs ≠ [] →
  pd_concat objs = pd_concat (filter keeps_frame objs).
Proof.
  intros Hkept.
  destruct (filter keeps_frame objs) as [|k ks] eqn:Hf; [done|].
  destruct objs as [|df objs]; [done|].
  rewrite !pd_concat_eq, <- Hf.
  rewrite filter_keeps_rows, filter_keeps_labels. do 2 f_equal.
  apply list_fmap_ext. intros _ l _. by rewrite filter_keeps_cells.
Qed.

Lemma pd_concat_ignores_empty_frames_witness :
  pd_concat [DataFrame_empty; csv_people; DataFrame_empty; xml_people]
  = pd_concat
      (filter keeps_frame [DataFrame_empty; csv_people; DataFrame_empty; xml_people]).
Proof. apply pd_concat_ignores_empty_frames. discriminate. Defined.

Lemma add_labels_fresh ls : ∀ acc,
  NoDup (acc ++ ls) → foldl add_label acc ls = acc ++ ls.
Proof.
  induction ls as [|l ls IH]; intros acc Hnd; cbn.
  - by rewrite app_nil_r.
  - assert (l ∉ acc) as Hl.
    { apply NoDup_app in Hnd as (_ & Hdisj & _). intros Hin.
      apply (Hdisj _ Hin). left. }
    unfold add_label at 2. rewrite decide_False by done.
    rewrite IH; rewrite <- app_assoc; done.
Qed.

Lemma unique_labels_NoDup ls : NoDup ls → unique_labels ls = ls.
Proof. intros Hnd. unfold unique_labels. by rewrite add_labels_fresh. Qed.

Lemma dict_tabulate_own_keys (d : list (string * list cell)) :
  NoDup d.*1 →
  (λ l, (l, default [] (dict_get l d) ++ [])) <$> d.*1 = d.
Proof.
  induction d as [|[k v] d IH]; [done|].
  rewrite fmap_cons. cbn [fst]. intros [Hk Hnd]%NoDup_cons.
  rewrite fmap_cons. cbn [dict_get]. rewrite decide_True by done.
  cbn [default]. rewrite app_nil_r. f_equal.
  rewrite <- (IH Hnd) at 2. apply list_fmap_ext. intros i l Hl.
  apply list_elem_of_lookup_2 in Hl.
  cbn [dict_get]. rewrite decide_False; [done|]. by intros ->.
Qed.

(** X11. Aggregating one well-formed frame returns that frame: when one
    file only was extracted, the table handed to the transform is the
    table of that file. *)
Theorem pd_concat_single_frame (df : DataFrame) :
  df_wf df → pd_concat [df] = Ok df.
Proof.
  intros [Hnd Hlen]. rewrite pd_concat_eq. cbn [fmap list_fmap concat sum_list].
  rewrite app_nil_r, Nat.add_0_r, unique_labels_NoDup by done.
  destruct df as [n d]. unfold columns in *. cbn [nrows data] in *.
  do 2 f_equal. etrans; [|apply (dict_tabulate_own_keys d Hnd)].
  apply list_fmap_ext. intros i l Hl. apply list_elem_of_lookup_2 in Hl.
  apply dict_get_is_Some in Hl as [v Hv].
  unfold column_or_nan, get_col. cbn [data]. by rewrite Hv.
Qed.

Lemma pd_concat_single_frame_witness : pd_concat [bob_frame] = Ok bob_frame.
Proof. apply pd_concat_single_frame, bob_frame_wf. Defined.

(** ** The transform on frames that lack a column *)

Definition transform_started : string :=
  "transform_data started. Context: Transforming data".

Section TransformErrors.
Variable str_to_float : string → option float.
Variable self : ETLProcess.

Lemma select_missing d labels l :
  l ∈ labels → l ∉ columns d → select d labels = None.
Proof.
  intros Hin Hmiss. apply dict_get_None in Hmiss. unfold select.
  induction labels as [|l' labels IH]; [by apply elem_of_nil in Hin|].
  apply elem_of_cons in Hin as [<-|Hin].
  - cbn. unfold get_col. by rewrite Hmiss.
  - cbn. destruct (get_col l' d); [|done]. cbn.
    change (mapM (λ l0, get_col l0 d ≫= λ v, Some (l0, v)) labels)
      with (mapM (λ l0, v ← get_col l0 d; Some (l0, v)) labels).
    by rewrite (IH Hin).
Qed.

(** X12. On a frame that lacks [height] or [weight], [transform_data]
    raises [KeyError] at its first selection: the frame given is not
    assigned to, no frame is created, and the completion line is not
    logged. *)
Theorem transform_data_missing_measure (df : ref) (w : world) (d : DataFrame) :
  frames w !! df = Some d →
  "height" ∉ columns d ∨ "weight" ∉ columns d →
  ∃ msg,
    transform_data str_to_float self df w
    = (Raise (Exn KeyError msg), append_lines [transform_started] w) ∧
    frames (append_lines [transform_started] w) = frames w.
Proof.
  intros Hdf Hmiss. eexists. split; [|done].
  rewrite (transform_data_missing str_to_float self df w d Hdf); [done|].
  destruct Hmiss as [Hm|Hm]; eapply select_missing; try exact Hm;
    by apply (bool_decide_unpack _).
Qed.

(** X13. On a frame that has [height] and [weight] and lacks [name],
    [transform_data] raises [KeyError] at its last selection, after the
    assignment: the frame given already holds the converted [height] and
    [weight] when the exception leaves, and no frame was created. *)
Theorem transform_data_missing_name (df : ref) (w : world) (d : DataFrame)
    (hs ws : list cell) :
  frames w !! df = Some d →
  get_col "height" d = Some hs →
  get_col "weight" d = Some ws →
  "name" ∉ columns d →
  transform_data str_to_float self df w
  = (Raise (Exn KeyError "['name'] not in index"),
     mkWorld (log_file w ++ [transform_started])
       (<[df := assigned str_to_float d hs ws]> (frames w))
       (fs w)).
Proof.
  intros Hdf Hh Hw Hname.
  unfold transform_data. rewrite log_function_eq.
  unfold mbind, io_mbind, io_bind.
  unfold get_frame at 1. cbn [frames append_lines]. rewrite Hdf.
  unfold lift at 1. unfold getitem at 1.
  rewrite (select_height_weight _ _ _ Hh Hw).
  unfold lift, multiply, setitem, put_frame. cbn.
  rewrite decide_True by done. cbn. rewrite decide_True by done.
  unfold get_frame. cbn [frames].
  rewrite list_lookup_insert_eq by eauto using lookup_lt_Some.
  rewrite <- !list_fmap_compose.
  match goal with
  | |- context [<[df := ?x]> _] => change x with (assigned str_to_float d hs ws)
  end.
  assert (columns (assigned str_to_float d hs ws) = columns d) as Hcols.
  { apply assigned_keys; eauto using get_col_Some_columns. }
  unfold getitem.
  rewrite (select_missing (assigned str_to_float d hs ws) _ "name");
    [|by apply (bool_decide_unpack _)|by rewrite Hcols].
  unfold key_error. rewrite Hcols.
  rewrite !filter_cons, filter_nil.
  pose proof (get_col_Some_columns _ _ _ Hh) as Hhin.
  pose proof (get_col_Some_columns _ _ _ Hw) as Hwin.
  destruct (decide ("name" ∉ columns d)); [|done].
  destruct (decide ("height" ∉ columns d)); [done|].
  destruct (decide ("weight" ∉ columns d)); [done|].
  reflexivity.
Qed.
End TransformErrors.

(** A frame of measures with no [name] column. *)
Definition nameless_frame : DataFrame :=
  mkDataFrame 1 [("height", [CStr "70"]); ("weight", [CNum 180])].

Lemma transform_data_missing_measure_witness :
  ∃ msg,
    transform_data parse_seventy etl 0 (mkWorld [] [csv_people] ∅)
    = (Raise (Exn KeyError msg),
       append_lines [transform_started] (mkWorld [] [csv_people] ∅)) ∧
    frames (append_lines [transform_started] (mkWorld [] [csv_people] ∅))
    = frames (mkWorld [] [csv_people] ∅).
Proof.
  apply (transform_data_missing_measure parse_seventy etl 0
           (mkWorld [] [csv_people] ∅) csv_people).
  - reflexivity.
  - right. by apply (bool_decide_unpack _).
Defined.

Lemma transform_data_missing_name_witness :
  transform_data parse_seventy etl 0 (mkWorld [] [nameless_frame] ∅)
  = (Raise (Exn KeyError "['name'] not in index"),
     mkWorld ([] ++ [transform_started])
       (<[0 := assigned parse_seventy nameless_frame [CStr "70"] [CNum 180]]>
          [nameless_frame])
       ∅).
Proof.
  apply (transform_data_missing_name parse_seventy etl 0
           (mkWorld [] [nameless_frame] ∅) nameless_frame).
  - reflexivity.
  - reflexivity.
  - reflexivity.
  - by apply (bool_decide_unpack _).
Defined.

(** ** Writing the output file *)

Definition load_started : string := "load_data started. Context: Loading data".

Section Load.
Variable float_repr : float → string.
Variable makedirs : string → result unit.
Variable open_write : string → result unit.
Variable self : ETLProcess.

Local Abbreviation load_data' := (load_data float_repr makedirs open_write self).

(** X15. When the directory cannot be made, or when it can and the file
    cannot be opened for writing, [load_data] raises the error it met and
    writes nothing: the files are as before, the earlier output among
    them, and the completion line is not logged. *)
Theorem load_data_failure_writes_nothing (out : ref) (w : world)
    (d : DataFrame) (e : exn) :
  frames w !! out = Some d →
  makedirs (output_file self) = Raise e ∨
  (makedirs (output_file self) = Ok () ∧ open_write (output_file self) = Raise e) →
  load_data' out w = (Raise e, append_lines [load_started] w) ∧
  fs (load_data' out w).2 = fs w.
Proof.
  intros Hout Hfail.
  assert (load_data' out w = (Raise e, append_lines [load_started] w)) as Hrun.
  { unfold load_data. rewrite log_function_eq.
    unfold mbind, io_mbind, io_bind, write_csv, lift, get_frame.
    destruct Hfail as [Hdirs|[Hdirs Hopen]]; rewrite Hdirs; [done|].
    cbn [frames append_lines]. rewrite Hout.
    unfold mbind, io_mbind, io_bind, lift. by rewrite Hopen. }
  by rewrite Hrun.
Qed.

(** X16. When the directory can be made and the file opened, [load_data]
    replaces the output file by the records of the frame, whatever the
    file held, and touches no other file and no frame; loading the same
    frame again leaves the files as they are. *)
Theorem load_data_replaces_file (out : ref) (w : world) (d : DataFrame) :
  frames w !! out = Some d →
  makedirs (output_file self) = Ok () →
  open_write (output_file self) = Ok () →
  ∃ w',
    load_data' out w = (Ok (), w') ∧
    fs w' !! output_file self = Some (to_csv float_repr d) ∧
    (∀ path, path ≠ output_file self → fs w' !! path = fs w !! path) ∧
    frames w' = frames w ∧
    ∃ w'', load_data' out w' = (Ok (), w'') ∧ fs w'' = fs w'.
Proof.
  intros Hout Hdirs Hopen. eexists. split; [by apply load_data_eq|].
  cbn [fs frames]. split; [apply lookup_insert_eq|].
  split; [intros path Hpath; by apply lookup_insert_ne|]. split; [done|].
  eexists. split; [by apply load_data_eq|].
  cbn [fs]. apply insert_insert_eq.
Qed.
End Load.

Definition never_opens (path : string) : result unit :=
  Raise (Exn OSError "[Errno 13] Permission denied").

Lemma load_data_failure_writes_nothing_witness :
  load_data plain_repr always_ok never_opens etl 0 bob_world
  = (Raise (Exn OSError "[Errno 13] Permission denied"),
     append_lines [load_started] bob_world) ∧
  fs (load_data plain_repr always_ok never_opens etl 0 bob_world).2 = fs bob_world.
Proof.
  apply (load_data_failure_writes_nothing plain_repr always_ok never_opens etl
           0 bob_world bob_frame).
  - reflexivity.
  - right. split; reflexivity.
Defined.

Lemma load_data_replaces_file_witness :
  ∃ w',
    load_data plain_repr always_ok always_ok etl 0 bob_world = (Ok (), w') ∧
    fs w' !! output_file etl = Some (to_csv plain_repr bob_frame) ∧
    (∀ path, path ≠ output_file etl → fs w' !! path = fs bob_world !! path) ∧
    frames w' = frames bob_world ∧
    ∃ w'', load_data plain_repr always_ok always_ok etl 0 w' = (Ok (), w'') ∧
           fs w'' = fs w'.
Proof.
  apply (load_data_replaces_file plain_repr always_ok always_ok etl 0 bob_world
           bob_frame); reflexivity.
Defined.

(** ** The order in which tasks finish *)

(** [t] does not read the log: from two worlds that differ in their logs
    only, it returns the same result, leaves the same frames and files,
    and appends the same lines. *)
Definition log_blind {A} (t : io A) : Prop :=
  ∀ fr f, ∃ r L fr' f', ∀ lg, t (mkWorld lg fr f) = (r, mkWorld (lg ++ L) fr' f').

Section LogBlind.
Context {A B : Type}.

Lemma log_blind_ret (a : A) : log_blind (mret a).
Proof. intros fr f. exists (Ok a), [], fr, f. intros lg. cbn. by rewrite app_nil_r. Qed.

Lemma log_blind_lift (r : result A) : log_blind (lift r).
Proof. intros fr f. exists r, [], fr, f. intros lg. cbn. by rewrite app_nil_r. Qed.

Lemma log_blind_bind (m : io A) (k : A → io B) :
  log_blind m → (∀ a, log_blind (k a)) → log_blind (m ≫= k).
Proof.
  intros Hm Hk fr f. destruct (Hm fr f) as ([a|e] & L & fr' & f' & Hrun).
  - destruct (Hk a fr' f') as (r & L' & fr'' & f'' & Hrun').
    exists r, (L ++ L'), fr'', f''. intros lg.
    unfold mbind, io_mbind, io_bind. by rewrite Hrun, Hrun', app_assoc.
  - exists (Raise e), L, fr', f'. intros lg.
    unfold mbind, io_mbind, io_bind. by rewrite Hrun.
Qed.
End LogBlind.

Lemma log_blind_log msg : log_blind (log msg).
Proof. intros fr f. by exists (Ok ()), [msg], fr, f. Qed.

Lemma log_blind_new_frame df : log_blind (new_frame df).
Proof.
  intros fr f. exists (Ok (length fr)), [], (fr ++ [df]), f. intros lg.
  unfold new_frame. cbn. by rewrite app_nil_r.
Qed.

Lemma log_blind_get_frame r : log_blind (get_frame r).
Proof.
  intros fr f. unfold get_frame. cbn [frames].
  destruct (fr !! r) as [df|].
  - exists (Ok df), [], fr, f. intros lg. by rewrite app_nil_r.
  - eexists (Raise _), [], fr, f. intros lg. by rewrite app_nil_r.
Qed.

Lemma log_blind_put_frame r df : log_blind (put_frame r df).
Proof.
  intros fr f. exists (Ok ()), [], (<[r := df]> fr), f. intros lg.
  unfold put_frame. cbn. by rewrite app_nil_r.
Qed.

Lemma log_blind_put_file path content : log_blind (put_file path content).
Proof.
  intros fr f. exists (Ok ()), [], fr, (<[path := content]> f). intros lg.
  unfold put_file. cbn. by rewrite app_nil_r.
Qed.

Lemma log_blind_log_function {A} context name (func : io A) :
  log_blind func → log_blind (log_function context name func).
Proof.
  intros Hf. unfold log_function.
  apply log_blind_bind; [apply log_blind_log|]. intros _.
  apply log_blind_bind; [done|]. intros a.
  apply log_blind_bind; [apply log_blind_log|]. intros _.
  apply log_blind_ret.
Qed.

Section CompletionOrder.
Variable str_to_float : string → option float.
Variable float_repr : float → string.
Variable open_read : string → result string.
Variable read_csv : string → result DataFrame.
Variable read_json : string → result DataFrame.
Variable ET_parse : string → result Element.
Variable glob : string → list string.
Variable makedirs : string → result unit.
Variable open_write : string → result unit.
Variable self : ETLProcess.

Local Abbreviation run' :=
  (run str_to_float float_repr open_read read_csv read_json ET_parse glob
       makedirs open_write).

Lemma log_blind_transform_data df : log_blind (transform_data str_to_float self df).
Proof.
  apply log_blind_log_function.
  apply log_blind_bind; [apply log_blind_get_frame|]. intros d.
  apply log_blind_bind; [apply log_blind_lift|]. intros selected.
  apply log_blind_bind; [apply log_blind_lift|]. intros converted.
  apply log_blind_bind; [apply log_blind_lift|]. intros d'.
  apply log_blind_bind; [apply log_blind_put_frame|]. intros _.
  apply log_blind_bind; [apply log_blind_get_frame|]. intros d''.
  apply log_blind_bind; [apply log_blind_lift|]. intros out.
  apply log_blind_new_frame.
Qed.

Lemma log_blind_load_data df :
  log_blind (load_data float_repr makedirs open_write self df).
Proof.
  apply log_blind_log_function.
  apply log_blind_bind; [apply log_blind_lift|]. intros _.
  apply log_blind_bind; [apply log_blind_get_frame|]. intros d.
  apply log_blind_bind; [apply log_blind_lift|]. intros _.
  apply log_blind_put_file.
Qed.

(** X17. The order in which the event loop finishes the tasks changes
    nothing but the order of the lines in the log: [run] ends with the
    same result or the same exception, and leaves the same output files
    and the same frames, for every two orders. *)
Theorem run_independent_of_completion_order (order1 order2 : list nat) (w : world) :
  (run' self order1 w).1 = (run' self order2 w).1 ∧
  fs (run' self order1 w).2 = fs (run' self order2 w).2 ∧
  frames (run' self order1 w).2 = frames (run' self order2 w).2.
Proof.
  rewrite !run_eq, !log_function_eq.
  set (w1 := append_lines _ w).
  destruct (gather_process_files open_read read_csv read_json ET_parse self
              (unzipped glob) order1 w1) as (L1 & Hrun1 & _).
  destruct (gather_process_files open_read read_csv read_json ET_parse self
              (unzipped glob) order2 w1) as (L2 & Hrun2 & _).
  set (results := file_result open_read read_csv read_json ET_parse self
                    <$> unzipped glob) in *.
  set (rest := λ results : list DataFrame,
         aggregated ← lift (pd_concat results);
         df ← new_frame aggregated;
         out ← transform_data str_to_float self df;
         load_data float_repr makedirs open_write self out).
  assert (log_blind (rest results)) as Hblind.
  { apply log_blind_bind; [apply log_blind_lift|]. intros aggregated.
    apply log_blind_bind; [apply log_blind_new_frame|]. intros df.
    apply log_blind_bind; [apply log_blind_transform_data|]. intros out.
    apply log_blind_load_data. }
  destruct (Hblind (frames w) (fs w)) as (r & L & fr' & f' & Hrest).
  change (gather order1 _ ≫= _) with (gather order1
    (process_file open_read read_csv read_json ET_parse self <$> unzipped glob)
    ≫= rest).
  change (gather order2 _ ≫= _) with (gather order2
    (process_file open_read read_csv read_json ET_parse self <$> unzipped glob)
    ≫= rest).
  assert (∀ order Lo,
            gather order
              (process_file open_read read_csv read_json ET_parse self
                 <$> unzipped glob) w1 = (Ok results, append_lines Lo w1) →
            (gather order
               (process_file open_read read_csv read_json ET_parse self
                  <$> unzipped glob) ≫= rest) w1
            = (r, mkWorld ((log_file w1 ++ Lo) ++ L) fr' f')) as Hboth.
  { intros order Lo Hrun. unfold mbind at 1, io_mbind at 1, io_bind at 1.
    rewrite Hrun. unfold append_lines. apply Hrest. }
  rewrite (Hboth order1 L1 Hrun1), (Hboth order2 L2 Hrun2). by destruct r.
Qed.
End CompletionOrder.

(** ** The failures in the log of a run *)

Section RunLog.
Variable str_to_float : string → option float.
Variable float_repr : float → string.
Variable open_read : string → result string.
Variable read_csv : string → result DataFrame.
Variable read_json : string → result DataFrame.
Variable ET_parse : string → result Element.
Variable glob : string → list string.
Variable makedirs : string → result unit.
Variable open_write : string → result unit.
Variable self : ETLProcess.

Local Abbreviation run' :=
  (run str_to_float float_repr open_read read_csv read_json ET_parse glob
       makedirs open_write).

(** X18. However [run] ends, its log holds the line of the [except]
    clause for every discovered file whose extraction raised: a failure is
    never dropped from the log, also when [run] itself ends with an
    exception. *)
Theorem run_logs_every_failure (order : list nat) (w w1 : world)
    (file : string) (e : exn) :
  file ∈ unzipped glob →
  extract open_read read_csv read_json ET_parse
    (get_extractor (file_type file)) file
    (append_lines [process_file_started] blank) = (Raise e, w1) →
  failure_line file e ∈ log_file (run' self order w).2.
Proof.
  intros Hfile Hraise.
  rewrite run_eq, log_function_eq.
  set (w0 := append_lines _ w).
  destruct (gather_process_files open_read read_csv read_json ET_parse self
              (unzipped glob) order w0) as (Lo & Hrun & Hlog).
  assert (failure_line file e ∈ Lo) as Hin.
  { apply (Hlog file); [done|]. unfold file_log.
    rewrite process_file_eq, Hraise. cbn.
    rewrite !elem_of_app, !elem_of_cons. tauto. }
  set (rest := λ results : list DataFrame,
         aggregated ← lift (pd_concat results);
         df ← new_frame aggregated;
         out ← transform_data str_to_float self df;
         load_data float_repr makedirs open_write self out).
  assert (log_blind
            (rest (file_result open_read read_csv read_json ET_parse self
                     <$> unzipped glob))) as Hblind.
  { apply log_blind_bind; [apply log_blind_lift|]. intros aggregated.
    apply log_blind_bind; [apply log_blind_new_frame|]. intros df.
    apply log_blind_bind; [apply log_blind_transform_data|]. intros out.
    apply log_blind_load_data. }
  destruct (Hblind (frames w) (fs w)) as (r & L & fr' & f' & Hrest).
  change (gather order _ ≫= _) with (gather order
    (process_file open_read read_csv read_json ET_parse self <$> unzipped glob)
    ≫= rest).
  unfold mbind at 1, io_mbind at 1, io_bind at 1. rewrite Hrun.
  unfold append_lines at 1. cbn [frames fs]. rewrite Hrest.
  destruct r as [[]|e']; cbn [snd log_file append_lines];
    rewrite !elem_of_app; tauto.
Qed.
End RunLog.

Lemma run_logs_every_failure_witness :
  failure_line "./unzipped_folder/people.csv"
    (Exn FileNotFoundError
       "[Errno 2] No such file or directory: './unzipped_folder/people.csv'")
  ∈ log_file
      (run parse_seventy plain_repr no_file no_columns no_columns empty_root
           two_bad_files always_ok always_ok etl [1; 0] blank).2.
Proof.
  apply (run_logs_every_failure parse_seventy plain_repr no_file no_columns
           no_columns empty_root two_bad_files always_ok always_ok etl [1; 0]
           blank
           (append_lines [process_file_started; csv_started] blank)).
  - unfold unzipped, two_bad_files. apply elem_of_cons. right.
    apply elem_of_cons. by left.
  - reflexivity.
Defined.

(** ** The table [run] aggregates *)

Lemma cell_at_inv df l i c :
  df_wf df → cell_at df l i = Some c → l ∈ columns df ∧ i < nrows df.
Proof.
  intros Hwf Hcell. unfold cell_at in Hcell.
  destruct (get_col l df) as [v|] eqn:Hv; [|done]. cbn in Hcell. split.
  - by eapply get_col_Some_columns.
  - rewrite <- (df_wf_column_length df l v) by done. by eapply lookup_lt_Some.
Qed.

Lemma pd_concat_cell objs agg pre df post l i c :
  pd_concat objs = Ok agg →
  Forall df_wf objs →
  objs = pre ++ df :: post →
  cell_at df l i = Some c →
  cell_at agg l (sum_list (nrows <$> pre) + i) = Some c.
Proof.
  intros Hagg Hwf -> Hcell.
  assert (df_wf df) as Hdf.
  { apply Forall_app in Hwf as [_ Hwf]. by apply Forall_cons in Hwf as [? _]. }
  destruct (cell_at_inv df l i c Hdf Hcell) as [Hl Hi].
  destruct (pre ++ df :: post) as [|d0 ds] eqn:Hobjs; [by destruct pre|].
  assert (get_col l agg = Some (concat (column_or_nan l <$> d0 :: ds))) as Hget.
  { assert (agg = mkDataFrame
                     (sum_list (nrows <$> d0 :: ds))
                     ((λ l, (l, concat (column_or_nan l <$> d0 :: ds)))
                        <$> unique_labels (concat (columns <$> d0 :: ds))))
      as -> by (rewrite pd_concat_eq in Hagg; congruence).
    apply (dict_get_tabulate (λ l, concat (column_or_nan l <$> d0 :: ds))).
    apply elem_of_unique_labels, elem_of_concat. exists (columns df).
    split; [|done]. apply list_elem_of_fmap. exists df. split; [done|].
    rewrite <- Hobjs. apply elem_of_app. right. left. }
  unfold cell_at at 1. rewrite Hget.
  change (concat (column_or_nan l <$> d0 :: ds)
            !! (sum_list (nrows <$> pre) + i) = Some c).
  rewrite <- Hobjs in *. rewrite concat_columns_lookup by done.
  rewrite column_or_nan_lookup by done. by rewrite decide_True.
Qed.

Section DiscoveryOrder.
Variable str_to_float : string → option float.
Variable float_repr : float → string.
Variable open_read : string → result string.
Variable read_csv : string → result DataFrame.
Variable read_json : string → result DataFrame.
Variable ET_parse : string → result Element.
Variable glob : string → list string.
Variable makedirs : string → result unit.
Variable open_write : string → result unit.
Variable self : ETLProcess.

Local Abbreviation process_file' := (process_file open_read read_csv read_json ET_parse).
Local Abbreviation file_result' := (file_result open_read read_csv read_json ET_parse self).
Local Abbreviation run' :=
  (run str_to_float float_repr open_read read_csv read_json ET_parse glob
       makedirs open_write).

(** C10. Let the files that [glob] discovers be extracted into well-formed
    frames, in a directory that is not empty. Whatever the order in which
    the tasks finish, [gather] hands [run] the result of the i-th file
    discovered at place i; [run] goes on with the table [agg] that
    [pd.concat] makes of them, and in [agg] the rows of a file stand after
    the rows of the files discovered before it: the cell of its row [i]
    is the cell of row [i] counted from the number of rows before. *)
Theorem run_aggregates_in_discovery_order (order : list nat) (w : world) :
  unzipped glob ≠ [] →
  Forall df_wf (file_result' <$> unzipped glob) →
  ∃ agg L,
    gather order (process_file' self <$> glob "./unzipped_folder/*")
      (append_lines [run_started] w)
    = (Ok (file_result' <$> glob "./unzipped_folder/*"),
       append_lines (run_started :: L) w) ∧
    pd_concat (file_result' <$> glob "./unzipped_folder/*") = Ok agg ∧
    run' self order w
    = log_function (Some "ETL Process") "run"
        (λ w0,
           (df ← new_frame agg;
            out ← transform_data str_to_float self df;
            load_data float_repr makedirs open_write self out)
             (append_lines L w0)) w ∧
    nrows agg = sum_list (nrows <$> (file_result' <$> glob "./unzipped_folder/*")) ∧
    (∀ pre file post l i c,
       glob "./unzipped_folder/*" = pre ++ file :: post →
       cell_at (file_result' file) l i = Some c →
       cell_at agg l (sum_list (nrows <$> (file_result' <$> pre)) + i) = Some c).
Proof.
  intros Hne Hwf. fold (unzipped glob).
  destruct (gather_process_files open_read read_csv read_json ET_parse self
              (unzipped glob) order (append_lines [run_started] w))
    as (L & Hrun & _).
  destruct (file_result' <$> unzipped glob) as [|d0 ds] eqn:Hres.
  { by destruct (unzipped glob). }
  eexists _, L. split; [by rewrite Hrun, append_lines_app|].
  split; [apply pd_concat_eq|]. rewrite <- Hres in *. split; [|split].
  - rewrite run_eq, !log_function_eq.
    change ("run" +:+ " started. " +:+ context_info (Some "ETL Process"))
      with run_started.
    unfold mbind at 1, io_mbind at 1, io_bind at 1. rewrite Hrun.
    unfold mbind at 1, io_mbind at 1, io_bind at 1, lift at 1.
    rewrite Hres, pd_concat_eq. rewrite <- Hres. reflexivity.
  - rewrite Hres. reflexivity.
  - intros pre file post l i c Hsplit Hcell.
    apply (pd_concat_cell (file_result' <$> unzipped glob) _
             (file_result' <$> pre) (file_result' file) (file_result' <$> post)).
    + rewrite Hres. apply pd_concat_eq.
    + done.
    + by rewrite Hsplit, fmap_app, fmap_cons.
    + done.
Qed.
End DiscoveryOrder.

Lemma one_good_file_results :
  file_result people_csv_text reads_bob no_columns empty_root etl
    <$> unzipped one_good_file
  = [bob_frame; DataFrame_empty].
Proof. reflexivity. Defined.

Lemma run_aggregates_in_discovery_order_witness :
  ∃ agg L,
    gather [1]
      (process_file people_csv_text reads_bob no_columns empty_root etl
         <$> one_good_file "./unzipped_folder/*")
      (append_lines [run_started] blank)
    = (Ok (file_result people_csv_text reads_bob no_columns empty_root etl
             <$> one_good_file "./unzipped_folder/*"),
       append_lines (run_started :: L) blank) ∧
    pd_concat
      (file_result people_csv_text reads_bob no_columns empty_root etl
         <$> one_good_file "./unzipped_folder/*") = Ok agg ∧
    run parse_seventy plain_repr people_csv_text reads_bob no_columns empty_root
        one_good_file always_ok always_ok etl [1] blank
    = log_function (Some "ETL Process") "run"
        (λ w0,
           (df ← new_frame agg;
            out ← transform_data parse_seventy etl df;
            load_data plain_repr always_ok always_ok etl out)
             (append_lines L w0)) blank ∧
    nrows agg
    = sum_list
        (nrows <$> (file_result people_csv_text reads_bob no_columns empty_root etl
                      <$> one_good_file "./unzipped_folder/*")) ∧
    (∀ pre file post l i c,
       one_good_file "./unzipped_folder/*" = pre ++ file :: post →
       cell_at (file_result people_csv_text reads_bob no_columns empty_root etl file)
         l i = Some c →
       cell_at agg l
         (sum_list
            (nrows <$> (file_result people_csv_text reads_bob no_columns
                          empty_root etl <$> pre)) + i) = Some c).
Proof.
  apply (run_aggregates_in_discovery_order parse_seventy plain_repr
           people_csv_text reads_bob no_columns empty_root one_good_file
           always_ok always_ok etl [1] blank).
  - discriminate.
  - rewrite one_good_file_results.
    apply Forall_cons. split; [apply bob_frame_wf|].
    apply Forall_cons. split; [|apply Forall_nil_2].
    split; [apply NoDup_nil_2|apply Forall_nil_2].
Defined.

(** ** The tasks when the log sink can refuse a line *)

(** [Logger.log] reads the configuration, opens the log file and writes:
    each step can raise. [sink msg] is what these steps do for the line
    [msg]; no call of [Logger().log] in the program stands inside a [try]
    that catches what it raises: the calls of [log_function] are outside
    the [try] of [process_file] and those of the handlers are inside its
    [except] clauses. The definitions below are those of the program with
    [log] replaced by [log_to]. *)
Section Sink.
Variable sink : string → result unit.
Variable open_read : string → result string.
Variable read_csv : string → result DataFrame.
Variable read_json : string → result DataFrame.
Variable ET_parse : string → result Element.









(** *** A sink that accepts every line *)







End Sink.





